(** * background-http (Android): upload tasks, their registry and the
      callback adapter

    A shallow embedding of [packages/background-http/index.android.ts].
    The module keeps four pieces of module-level state ([Task.taskCount],
    [Task.cache], the lazily created receiver and the namespace flag),
    creates [Task] objects that are shared by reference between the cache
    and the caller, and reacts to callbacks of the native upload service.

    Everything that belongs to the native upload service (building a
    request object, [startUpload], [stopUpload]) is an external
    collaborator: the calls the module makes are recorded, in program
    order, in the effect log of the state, and the builder methods are
    total record updates.  What the module itself does with the objects it
    gets back is modelled as JavaScript does it. *)

From Stdlib Require Import ZArith Lia Ascii String.
From stdpp Require Import base option strings list gmap pretty.

Local Open Scope Z_scope.

(** ** Values *)

(** A JavaScript [number] holding a byte count.  The native getters
    ([UploadInfo.getTotalBytes], [getUploadedBytes]) return a Java [long];
    the bridge hands it over as an integral number, or as a value that is
    not finite when it does not fit. *)
Inductive number : Type :=
  | Finite (z : Z)
  | NaN
  | PosInfinity
  | NegInfinity.

(** [!n] is true exactly for [0] and [NaN]. *)
Definition number_falsy (n : number) : bool :=
  match n with
  | Finite z => z =? 0
  | NaN => true
  | PosInfinity | NegInfinity => false
  end.

(** The global [isFinite]. *)
Definition isFinite (n : number) : bool :=
  match n with
  | Finite _ => true
  | NaN | PosInfinity | NegInfinity => false
  end.

(** [n <= 0]; every comparison with [NaN] is false. *)
Definition number_le_zero (n : number) : bool :=
  match n with
  | Finite z => z <=? 0
  | NegInfinity => true
  | NaN | PosInfinity => false
  end.

(** [1 <= n], used to state lower bounds on byte counts. *)
Definition number_ge_one (n : number) : bool :=
  match n with
  | Finite z => 1 <=? z
  | PosInfinity => true
  | NaN | NegInfinity => false
  end.

(** The values carried by property-change notifications. *)
Inductive JsValue : Type :=
  | VUndefined
  | VNumber (n : number)
  | VString (s : string).

Definition of_optional_string (o : option string) : JsValue :=
  match o with
  | Some s => VString s
  | None => VUndefined
  end.

(** A string-valued property is falsy when it is absent or empty. *)
Definition string_falsy (o : option string) : bool :=
  match o with
  | Some s => String.eqb s ""
  | None => true
  end.

(** [o ? o : d], which for strings is also [o || d]. *)
Definition truthy_or (o : option string) (d : string) : string :=
  match o with
  | Some s => if String.eqb s "" then d else s
  | None => d
  end.

(** ** Native objects seen by the module *)

(** [net.gotev.uploadservice.network.ServerResponse].  [getCode] is [None]
    when [typeof response.getCode === 'function'] is false. *)
Record ServerResponse : Type := {
  getCode : option Z;
  getBodyString : string
}.

(** [net.gotev.uploadservice.data.UploadInfo]. *)
Record UploadInfo : Type := {
  getUploadId : string;
  getUploadedBytes : number;
  getTotalBytes : number
}.

(** The [java.lang.Throwable] handed to the error callback, split along
    the two [instanceof] tests of the handler. *)
Inductive Throwable : Type :=
  | UserCancelledUploadException
  | UploadError (getServerResponse : ServerResponse)
  | OtherThrowable (message : string).

(** [new java.lang.Exception(error)]: an exception whose cause is [error]. *)
Inductive JavaException : Type :=
  | ExceptionCausedBy (cause : Throwable).

(** ** Requests *)

(** Modelled from the spec: the options type [common.Request] is declared
    in [./index], which is not part of the sources at hand; the fields are
    the ones the code reads (URL, method, headers, description and the two
    platform-specific flags).  [None] stands for an absent field, and for
    the two Android fields also for a value of another type than the
    [typeof] test asks for.  [headers] lists the keys in [for ... in]
    order; a header value [None] is [null] or [undefined]. *)
Record Request : Type := {
  url : string;
  method : option string;
  headers : option (list (string * option string));
  description : option string;
  androidAutoDeleteAfterUpload : option bool;
  androidMaxRetries : option number
}.

(** One element of the [params] array of a multipart upload.  [None] is
    an [undefined] property. *)
Record Part : Type := {
  name : option string;
  value : option string;
  filename : option string;
  destFilename : option string;
  mimeType : option string
}.

Inductive Protocol : Type :=
  | BinaryUploadRequest
  | MultipartUploadRequest.

Record UploadFile : Type := {
  filePath : string;
  parameterName : string;
  remoteFileName : string;
  contentType : option string
}.

(** The native request builder.  [httpMethod] and [maxRetries] stay [None]
    until the module sets them. *)
Record UploadRequest : Type := {
  protocol : Protocol;
  serverUrl : string;
  fileToUpload : option string;
  parameters : list (string * string);
  filesToUpload : list UploadFile;
  autoDeleteFilesAfterSuccessfulUpload : bool;
  maxRetries : option number;
  requestHeaders : list (string * string);
  httpMethod : option string
}.

Definition newUploadRequest (p : Protocol) (u : string) : UploadRequest :=
  {| protocol := p; serverUrl := u; fileToUpload := None; parameters := [];
     filesToUpload := []; autoDeleteFilesAfterSuccessfulUpload := false;
     maxRetries := None; requestHeaders := []; httpMethod := None |}.

Definition setFileToUpload (f : string) (r : UploadRequest) : UploadRequest :=
  {| protocol := protocol r; serverUrl := serverUrl r; fileToUpload := Some f;
     parameters := parameters r; filesToUpload := filesToUpload r;
     autoDeleteFilesAfterSuccessfulUpload := autoDeleteFilesAfterSuccessfulUpload r;
     maxRetries := maxRetries r; requestHeaders := requestHeaders r;
     httpMethod := httpMethod r |}.

Definition addParameter (k v : string) (r : UploadRequest) : UploadRequest :=
  {| protocol := protocol r; serverUrl := serverUrl r; fileToUpload := fileToUpload r;
     parameters := parameters r ++ [(k, v)]; filesToUpload := filesToUpload r;
     autoDeleteFilesAfterSuccessfulUpload := autoDeleteFilesAfterSuccessfulUpload r;
     maxRetries := maxRetries r; requestHeaders := requestHeaders r;
     httpMethod := httpMethod r |}.

Definition addFileToUpload (p n d : string) (m : option string)
    (r : UploadRequest) : UploadRequest :=
  {| protocol := protocol r; serverUrl := serverUrl r; fileToUpload := fileToUpload r;
     parameters := parameters r;
     filesToUpload := filesToUpload r ++
       [{| filePath := p; parameterName := n; remoteFileName := d; contentType := m |}];
     autoDeleteFilesAfterSuccessfulUpload := autoDeleteFilesAfterSuccessfulUpload r;
     maxRetries := maxRetries r; requestHeaders := requestHeaders r;
     httpMethod := httpMethod r |}.

Definition setAutoDeleteFilesAfterSuccessfulUpload (b : bool)
    (r : UploadRequest) : UploadRequest :=
  {| protocol := protocol r; serverUrl := serverUrl r; fileToUpload := fileToUpload r;
     parameters := parameters r; filesToUpload := filesToUpload r;
     autoDeleteFilesAfterSuccessfulUpload := b;
     maxRetries := maxRetries r; requestHeaders := requestHeaders r;
     httpMethod := httpMethod r |}.

Definition setMaxRetries (n : number) (r : UploadRequest) : UploadRequest :=
  {| protocol := protocol r; serverUrl := serverUrl r; fileToUpload := fileToUpload r;
     parameters := parameters r; filesToUpload := filesToUpload r;
     autoDeleteFilesAfterSuccessfulUpload := autoDeleteFilesAfterSuccessfulUpload r;
     maxRetries := Some n; requestHeaders := requestHeaders r;
     httpMethod := httpMethod r |}.

Definition addHeader (k v : string) (r : UploadRequest) : UploadRequest :=
  {| protocol := protocol r; serverUrl := serverUrl r; fileToUpload := fileToUpload r;
     parameters := parameters r; filesToUpload := filesToUpload r;
     autoDeleteFilesAfterSuccessfulUpload := autoDeleteFilesAfterSuccessfulUpload r;
     maxRetries := maxRetries r; requestHeaders := requestHeaders r ++ [(k, v)];
     httpMethod := httpMethod r |}.

Definition setMethod (m : string) (r : UploadRequest) : UploadRequest :=
  {| protocol := protocol r; serverUrl := serverUrl r; fileToUpload := fileToUpload r;
     parameters := parameters r; filesToUpload := filesToUpload r;
     autoDeleteFilesAfterSuccessfulUpload := autoDeleteFilesAfterSuccessfulUpload r;
     maxRetries := maxRetries r; requestHeaders := requestHeaders r;
     httpMethod := Some m |}.

(** The [for (const header in headers)] loop of [setRequestOptions]. *)
Fixpoint addHeaders (hs : list (string * option string))
    (request : UploadRequest) : UploadRequest :=
  match hs with
  | [] => request
  | (header, Some v) :: rest => addHeaders rest (addHeader header v request)
  | (_, None) :: rest => addHeaders rest request
  end.

Definition setRequestOptions (request : UploadRequest) (options : Request)
    : UploadRequest :=
  let autoDeleteAfterUpload :=
    match androidAutoDeleteAfterUpload options with
    | Some b => b
    | None => false
    end in
  let request :=
    if autoDeleteAfterUpload
    then setAutoDeleteFilesAfterSuccessfulUpload true request
    else request in
  let request :=
    match androidMaxRetries options with
    | Some maxRetryCount =>
        if number_falsy maxRetryCount then request
        else setMaxRetries maxRetryCount request
    | None => request
    end in
  let request :=
    match headers options with
    | Some hs => addHeaders hs request
    | None => request
    end in
  setMethod (truthy_or (method options) "GET") request.

(** Neither request builder reads its [taskId] argument: the request is
    built from the options and the file or parts alone. *)
Definition getBinaryRequest (taskId : string) (options : Request)
    (file : string) : UploadRequest :=
  let request := newUploadRequest BinaryUploadRequest (url options) in
  let request := setFileToUpload file request in
  setRequestOptions request options.

(** [s.lastIndexOf(c)], scanning from the left; [-1] when [c] is absent. *)
Fixpoint lastIndexOf_from (c : ascii) (s : string) (i found : Z) : Z :=
  match s with
  | EmptyString => found
  | String a rest =>
      lastIndexOf_from c rest (i + 1) (if Ascii.eqb a c then i else found)
  end.

Definition lastIndexOf (c : ascii) (s : string) : Z :=
  lastIndexOf_from c s 0 (-1).

(** [s.substring(from, s.length)] for [0 <= from]. *)
Definition substring_from (from : Z) (s : string) : string :=
  String.substring (Z.to_nat from) (String.length s - Z.to_nat from)%nat s.

(** The text [String.prototype.replace] puts in for a match of a string
    pattern, which has no capture groups: in the replacement, [$$] is a
    dollar, [$&] the match, [$`] what precedes the match and [$'] what
    follows it; any other [$] stands for itself. *)
Fixpoint getSubstitution (matched before after replacement : string)
    : string :=
  match replacement with
  | EmptyString => EmptyString
  | String c rest =>
      if Ascii.eqb c "$" then
        match rest with
        | String d rest' =>
            if Ascii.eqb d "$"
            then String "$" (getSubstitution matched before after rest')
            else if Ascii.eqb d "&"
            then matched +:+ getSubstitution matched before after rest'
            else if Ascii.eqb d "`"
            then before +:+ getSubstitution matched before after rest'
            else if Ascii.eqb d "'"
            then after +:+ getSubstitution matched before after rest'
            else String "$" (getSubstitution matched before after rest)
        | EmptyString => String "$" EmptyString
        end
      else String c (getSubstitution matched before after rest)
  end.

(** [fileName.replace("~/", currentAppPath + "/")] on a name that starts
    with ["~/"]: the first occurrence is the leading one, so nothing
    precedes the match. *)
Definition expandAppRelative (currentAppPath fileName : string) : string :=
  if String.prefix "~/" fileName
  then getSubstitution "~/" "" (substring_from 2 fileName)
         (currentAppPath +:+ "/")
       +:+ substring_from 2 fileName
  else fileName.

(** ** Errors and outcomes *)

Inductive Error : Type :=
  | JsError (message : string)   (* [new Error(message)] *)
  | TypeError.   (* a property read on [undefined], [new] on an object *)

Inductive Outcome (A : Type) : Type :=
  | Return (a : A)
  | Throw (e : Error).
Arguments Return {A} a.
Arguments Throw {A} e.

(** The body of the [for] loop of [getMultipartRequest], part by part. *)
Fixpoint addParts (currentAppPath : string) (params : list Part)
    (request : UploadRequest) : Outcome UploadRequest :=
  match params with
  | [] => Return request
  | curParam :: rest =>
      match name curParam with
      | None => Throw (JsError "You must have a `name` value")
      | Some curName =>
          match filename curParam with
          | None =>
              match value curParam with
              | None => Throw TypeError
              | Some v => addParts currentAppPath rest (addParameter curName v request)
              end
          | Some fileName =>
              let fileName := expandAppRelative currentAppPath fileName in
              let destFileName :=
                truthy_or (destFilename curParam)
                  (substring_from (lastIndexOf "/" fileName + 1) fileName) in
              addParts currentAppPath rest
                (addFileToUpload fileName curName destFileName (mimeType curParam) request)
          end
      end
  end.

Definition getMultipartRequest (currentAppPath : string) (taskId : string)
    (options : Request) (params : list Part) : Outcome UploadRequest :=
  let request := newUploadRequest MultipartUploadRequest (url options) in
  match addParts currentAppPath params request with
  | Return request => Return (setRequestOptions request options)
  | Throw e => Throw e
  end.

(** ** Sessions, tasks and events *)

Record Session : Type := {
  Session_id : string
}.

(** [session(id)] builds a new session on every call. *)
Definition session (id : string) : Session := {| Session_id := id |}.

(** Tasks are objects: the state keeps them in a heap and every reference
    to a task (in the cache, in an event, in the caller's hands) is a
    location of that heap. *)
Abbreviation loc := nat (only parsing).

(** The fields of a [Task].  The four that are written by setters are
    [undefined] ([None]) on a task fresh from [new Task()]. *)
Record Task : Type := {
  _session : Session;
  _id : string;
  _upload : option number;
  _totalUpload : option number;
  _status : option string;
  _description : option string
}.

(** The payload of an event object besides [eventName] and [object]. *)
Inductive EventDetail : Type :=
  | NoDetail
  | PropertyChangeData (propertyName : string) (newValue : JsValue)
  | ProgressEventData (currentBytes totalBytes : number)
  | ErrorEventData (error : JavaException) (responseCode : Z)
      (response : ServerResponse)
  | ResultEventData (data : string) (responseCode : Z)
  | CompleteEventData (responseCode : Z) (response : option ServerResponse).

Record EventData : Type := {
  eventName : string;
  object : loc;
  detail : EventDetail
}.

(** [Observable.propertyChangeEvent]. *)
Definition propertyChangeEvent : string := "propertyChange".

(** What the module does to the outside and to its cache, in program order. *)
Inductive Effect : Type :=
  | Notify (e : EventData)              (* [e.object.notify(e)] *)
  | StartUpload (request : UploadRequest) (* [request.startUpload()] *)
  | StopUpload (uploadId : string)      (* [UploadService.stopUpload(id)] *)
  | CacheStore (id : string) (task : loc). (* [Task.cache[id] = task] *)

(** ** Module state *)

Record State : Type := {
  taskCount : N;                  (* [Task.taskCount], at most 2^53 *)
  cache : gmap string loc;        (* [Task.cache] *)
  heap : list Task;               (* the [Task] objects allocated so far *)
  ProgressReceiver : bool;        (* [ProgressReceiver] holds the observer *)
  receiver : bool;                (* [receiver] is set *)
  hasNamespace : bool;            (* [UploadService.NAMESPACE] is set *)
  currentAppPath : string;        (* [knownFolders.currentApp().path] *)
  effects : list Effect
}.

(** The state of a fresh process whose application lives at [appPath]. *)
Definition initial (appPath : string) : State :=
  {| taskCount := 0%N; cache := ∅; heap := []; ProgressReceiver := false;
     receiver := false; hasNamespace := false; currentAppPath := appPath;
     effects := [] |}.

Definition with_taskCount (n : N) (s : State) : State :=
  {| taskCount := n; cache := cache s; heap := heap s;
     ProgressReceiver := ProgressReceiver s; receiver := receiver s;
     hasNamespace := hasNamespace s; currentAppPath := currentAppPath s;
     effects := effects s |}.

Definition with_cache (c : gmap string loc) (s : State) : State :=
  {| taskCount := taskCount s; cache := c; heap := heap s;
     ProgressReceiver := ProgressReceiver s; receiver := receiver s;
     hasNamespace := hasNamespace s; currentAppPath := currentAppPath s;
     effects := effects s |}.

Definition with_heap (h : list Task) (s : State) : State :=
  {| taskCount := taskCount s; cache := cache s; heap := h;
     ProgressReceiver := ProgressReceiver s; receiver := receiver s;
     hasNamespace := hasNamespace s; currentAppPath := currentAppPath s;
     effects := effects s |}.

Definition with_ProgressReceiver (b : bool) (s : State) : State :=
  {| taskCount := taskCount s; cache := cache s; heap := heap s;
     ProgressReceiver := b; receiver := receiver s;
     hasNamespace := hasNamespace s; currentAppPath := currentAppPath s;
     effects := effects s |}.

Definition with_hasNamespace (b : bool) (s : State) : State :=
  {| taskCount := taskCount s; cache := cache s; heap := heap s;
     ProgressReceiver := ProgressReceiver s; receiver := receiver s;
     hasNamespace := b; currentAppPath := currentAppPath s;
     effects := effects s |}.

Definition with_effects (l : list Effect) (s : State) : State :=
  {| taskCount := taskCount s; cache := cache s; heap := heap s;
     ProgressReceiver := ProgressReceiver s; receiver := receiver s;
     hasNamespace := hasNamespace s; currentAppPath := currentAppPath s;
     effects := l |}.

(** ** Computations: module state plus exceptions

    A thrown exception keeps the state reached so far, as in JavaScript. *)
Definition M (A : Type) : Type := State → Outcome A * State.

Definition ret {A} (a : A) : M A := λ s, (Return a, s).

Definition throw {A} (e : Error) : M A := λ s, (Throw e, s).

Definition bind {A B} (m : M A) (k : A → M B) : M B :=
  λ s, match m s with
       | (Return a, s') => k a s'
       | (Throw e, s') => (Throw e, s')
       end.

Definition gets {A} (f : State → A) : M A := λ s, (Return (f s), s).

Definition modify (f : State → State) : M unit := λ s, (Return (), f s).

Definition lift {A} (o : Outcome A) : M A := λ s, (o, s).

Declare Scope js_scope.
Delimit Scope js_scope with js.
Notation "x <- m ; k" := (bind m (λ x, k))
  (at level 100, m at next level, k at level 200, right associativity,
   format "'[v' x  <-  m ; '/' k ']'") : js_scope.
Notation "m ;; k" := (bind m (λ _, k))
  (at level 100, k at level 200, right associativity,
   format "'[v' m ;; '/' k ']'") : js_scope.
Local Open Scope js_scope.

(** Append one effect to the log. *)
Definition emit (e : Effect) : M unit :=
  modify (λ s, with_effects (effects s ++ [e]) s).

(** [task.notify(e)]. *)
Definition notify (e : EventData) : M unit := emit (Notify e).

(** A method call [task.m(...)] on the result of a cache lookup: a
    [TypeError] when the lookup gave [undefined]. *)
Definition invoke {A} (task : option loc) (m : loc → M A) : M A :=
  match task with
  | Some this => m this
  | None => throw TypeError
  end.

(** An in-place write to the fields of the object at [this]. *)
Definition update (this : loc) (f : Task → Task) : M unit :=
  modify (λ s, with_heap (alter f this (heap s)) s).

(** [new Task()] with the two direct field writes of [initTask]. *)
Definition newTask (session : Session) (taskId : string) : M loc :=
  λ s, (Return (length (heap s)),
        with_heap (heap s ++ [{| _session := session; _id := taskId;
                                 _upload := None; _totalUpload := None;
                                 _status := None; _description := None |}]) s).

(** ** ObservableBase *)

Definition notifyPropertyChanged (this : loc) (propertyName : string)
    (v : JsValue) : M unit :=
  notify {| eventName := propertyChangeEvent; object := this;
            detail := PropertyChangeData propertyName v |}.

(** ** The receiver and the namespace guard *)

(** [ProgressReceiver] is assigned the observer object itself, the result
    of [new GlobalRequestObserver(context, delegate)]. *)
Definition initializeProgressReceiver : M unit :=
  built <- gets ProgressReceiver;
  if built : bool then ret ()
  else modify (with_ProgressReceiver true).

(** With [receiver] unset, [receiver = new ProgressReceiver()] comes after
    [initializeProgressReceiver()].  [ProgressReceiver] then holds an
    object, not a class, and [new] on it throws a [TypeError]: [receiver]
    is not assigned and [receiver.register(context)] is not reached. *)
Definition ensureReceiver : M unit :=
  registered <- gets receiver;
  if registered : bool then ret ()
  else initializeProgressReceiver;;
       throw TypeError.

Definition ensureUploadServiceNamespace : M unit :=
  has <- gets hasNamespace;
  if has : bool then ret ()
  else modify (with_hasNamespace true).

(** In-place field writes. *)
Definition withTotalUpload (v : number) (t : Task) : Task :=
  {| _session := _session t; _id := _id t; _upload := _upload t;
     _totalUpload := Some v; _status := _status t;
     _description := _description t |}.

Definition withUpload (v : number) (t : Task) : Task :=
  {| _session := _session t; _id := _id t; _upload := Some v;
     _totalUpload := _totalUpload t; _status := _status t;
     _description := _description t |}.

Definition withStatus (v : string) (t : Task) : Task :=
  {| _session := _session t; _id := _id t; _upload := _upload t;
     _totalUpload := _totalUpload t; _status := Some v;
     _description := _description t |}.

Definition withDescription (v : option string) (t : Task) : Task :=
  {| _session := _session t; _id := _id t; _upload := _upload t;
     _totalUpload := _totalUpload t; _status := _status t;
     _description := v |}.

(** ** class Task *)

Module Task.

Definition setTotalUpload (v : number) (this : loc) : M unit :=
  update this (withTotalUpload v);;
  notifyPropertyChanged this "totalUpload" (VNumber v).

Definition setUpload (v : number) (this : loc) : M unit :=
  update this (withUpload v);;
  notifyPropertyChanged this "upload" (VNumber v).

Definition setStatus (v : string) (this : loc) : M unit :=
  update this (withStatus v);;
  notifyPropertyChanged this "status" (VString v).

Definition setDescription (v : option string) (this : loc) : M unit :=
  update this (withDescription v);;
  notifyPropertyChanged this "description" (of_optional_string v).

Definition initTask (taskId : string) (session : Session)
    (options : Request) : M loc :=
  task <- newTask session taskId;
  setDescription (description options) task;;
  setUpload (Finite 0) task;;
  setTotalUpload (Finite 1) task;;
  setStatus "pending" task;;
  ret task.

(** [n + 1] on the JavaScript number that holds the counter: a double,
    exact up to 2^53, where adding one rounds back to 2^53.  The counter
    starts at 0 and only [++] writes it, so it stays at or below 2^53. *)
Definition increment (n : N) : N :=
  if (n <? 2 ^ 53)%N then (n + 1)%N else n.

(** [++Task.taskCount], giving the new value. *)
Definition nextTaskCount : M N :=
  modify (λ s, with_taskCount (increment (taskCount s)) s);;
  gets taskCount.

(** [session.id + "{" + n + "}"]. *)
Definition makeTaskId (session : Session) (n : N) : string :=
  ((Session_id session +:+ "{") +:+ pretty n) +:+ "}".

(** [Task.cache[id] = task], where [id] is read from the task. *)
Definition cacheStore (task : loc) : M unit :=
  h <- gets heap;
  match h !! task with
  | Some t =>
      modify (λ s, with_cache (<[_id t := task]> (cache s)) s);;
      emit (CacheStore (_id t) task)
  | None => throw TypeError
  end.

Definition create (session : Session) (file : string) (options : Request)
    : M loc :=
  ensureUploadServiceNamespace;;
  ensureReceiver;;
  n <- nextTaskCount;
  let taskId := makeTaskId session n in
  let request := getBinaryRequest taskId options file in
  task <- initTask taskId session options;
  emit (StartUpload request);;
  cacheStore task;;
  ret task.

Definition createMultiPart (session : Session) (params : list Part)
    (options : Request) : M loc :=
  ensureUploadServiceNamespace;;
  ensureReceiver;;
  n <- nextTaskCount;
  let taskId := makeTaskId session n in
  appPath <- gets currentAppPath;
  request <- lift (getMultipartRequest appPath taskId options params);
  task <- initTask taskId session options;
  emit (StartUpload request);;
  cacheStore task;;
  ret task.

Definition fromId (id : string) : M (option loc) :=
  gets (λ s, cache s !! id).

Definition cancel (this : loc) : M unit :=
  h <- gets heap;
  match h !! this with
  | Some t => emit (StopUpload (_id t))
  | None => throw TypeError
  end.

(** The getters, on a state. *)
Definition field {A} (f : Task → A) (this : loc) (s : State) : option A :=
  f <$> heap s !! this.
Definition id := field _id.
Definition upload (this : loc) (s : State) : option number :=
  heap s !! this ≫= _upload.
Definition totalUpload (this : loc) (s : State) : option number :=
  heap s !! this ≫= _totalUpload.
Definition status (this : loc) (s : State) : option string :=
  heap s !! this ≫= _status.
Definition description (this : loc) (s : State) : option string :=
  heap s !! this ≫= _description.

End Task.

Module SessionMethods.
Definition uploadFile (this : Session) (fileUri : string) (options : Request)
    : M loc :=
  Task.create this fileUri options.

Definition multipartUpload (this : Session) (params : list Part)
    (options : Request) : M loc :=
  Task.createMultiPart this params options.
End SessionMethods.

(** ** The callback adapter *)

Definition onProgressReceiverProgress (uploadInfo : UploadInfo) : M unit :=
  let uploadId := getUploadId uploadInfo in
  task <- Task.fromId uploadId;
  let totalBytes := getTotalBytes uploadInfo in
  let currentBytes := getUploadedBytes uploadInfo in
  invoke task (Task.setTotalUpload totalBytes);;
  invoke task (Task.setUpload currentBytes);;
  invoke task (Task.setStatus "uploading");;
  invoke task (λ this,
    notify {| eventName := "progress"; object := this;
              detail := ProgressEventData currentBytes totalBytes |}).

Definition onProgressReceiverCancelled (uploadInfo : UploadInfo) : M unit :=
  let uploadId := getUploadId uploadInfo in
  task <- Task.fromId uploadId;
  invoke task (Task.setStatus "cancelled");;
  invoke task (λ this,
    notify {| eventName := "cancelled"; object := this; detail := NoDetail |}).

Definition onProgressReceiverError (uploadInfo : UploadInfo)
    (error : Throwable) : M unit :=
  let uploadId := getUploadId uploadInfo in
  task <- Task.fromId uploadId;
  invoke task (Task.setStatus "error");;
  match error with
  | UserCancelledUploadException =>
      invoke task (λ this,
        notify {| eventName := "cancelled"; object := this; detail := NoDetail |})
  | UploadError serverResponse =>
      invoke task (λ this,
        notify {| eventName := "error"; object := this;
                  detail := ErrorEventData (ExceptionCausedBy error) (-1)
                              serverResponse |})
  | OtherThrowable _ =>
      invoke task (λ this,
        notify {| eventName := "error"; object := this; detail := NoDetail |})
  end.

(** [response && typeof response.getCode === 'function'
      ? response.getCode() : -1]. *)
Definition responseCodeOf (response : option ServerResponse) : Z :=
  match response with
  | Some r =>
      match getCode r with
      | Some code => code
      | None => -1
      end
  | None => -1
  end.

(** The normalisation of the reported total in the success handler. *)
Definition normalizeTotal (totalUpload : number) : number :=
  if number_falsy totalUpload || negb (isFinite totalUpload)
     || number_le_zero totalUpload
  then Finite 1
  else totalUpload.

Definition onProgressReceiverCompleted (uploadInfo : UploadInfo)
    (response : option ServerResponse) : M unit :=
  let uploadId := getUploadId uploadInfo in
  task <- Task.fromId uploadId;
  let totalUpload := normalizeTotal (getTotalBytes uploadInfo) in
  invoke task (Task.setUpload totalUpload);;
  invoke task (Task.setTotalUpload totalUpload);;
  invoke task (Task.setStatus "complete");;
  invoke task (λ this,
    notify {| eventName := "progress"; object := this;
              detail := ProgressEventData totalUpload totalUpload |});;
  invoke task (λ this,
    match response with
    | None => throw TypeError
    | Some r =>
        notify {| eventName := "responded"; object := this;
                  detail := ResultEventData (getBodyString r)
                              (responseCodeOf response) |}
    end);;
  invoke task (λ this,
    notify {| eventName := "complete"; object := this;
              detail := CompleteEventData (responseCodeOf response) response |}).

(** The delegate registered by [initializeProgressReceiver]: which handler
    each native callback runs. *)
Inductive Callback : Type :=
  | onProgress (uploadInfo : UploadInfo)
  | onError (uploadInfo : UploadInfo) (error : Throwable)
  | onSuccess (uploadInfo : UploadInfo) (serverResponse : option ServerResponse)
  | onCompleted (uploadInfo : UploadInfo)
  | onCompletedWhileNotObserving.

Definition deliver (c : Callback) : M unit :=
  match c with
  | onProgress uploadInfo => onProgressReceiverProgress uploadInfo
  | onError uploadInfo error => onProgressReceiverError uploadInfo error
  | onSuccess uploadInfo serverResponse =>
      onProgressReceiverCompleted uploadInfo serverResponse
  | onCompleted uploadInfo => onProgressReceiverProgress uploadInfo
  | onCompletedWhileNotObserving => ret ()
  end.

(** ** Observations on the effect log *)

(** What a computation appends to the log when run from [s]. *)
Definition emitted {A} (m : M A) (s : State) : list Effect :=
  drop (length (effects s)) (effects (m s).2).

(** The events handed to [notify]. *)
Fixpoint eventsOf (l : list Effect) : list EventData :=
  match l with
  | [] => []
  | Notify e :: rest => e :: eventsOf rest
  | _ :: rest => eventsOf rest
  end.

(** The semantic events: every notification but the property changes. *)
Fixpoint semanticEvents (l : list Effect) : list EventData :=
  match l with
  | [] => []
  | Notify e :: rest =>
      if String.eqb (eventName e) propertyChangeEvent
      then semanticEvents rest
      else e :: semanticEvents rest
  | _ :: rest => semanticEvents rest
  end.

(** How many events called [n] were notified. *)
Definition countNamed (n : string) (l : list Effect) : nat :=
  length (List.filter (λ e, String.eqb (eventName e) n) (eventsOf l)).

(** The requests handed to the upload service. *)
Fixpoint requestsStarted (l : list Effect) : list UploadRequest :=
  match l with
  | [] => []
  | StartUpload r :: rest => r :: requestsStarted rest
  | _ :: rest => requestsStarted rest
  end.

(** Whether a store of [id] into the cache comes before the first
    [startUpload] of the log. *)
Fixpoint storedBeforeStart (id : string) (l : list Effect) : bool :=
  match l with
  | [] => false
  | StartUpload _ :: _ => false
  | CacheStore id' _ :: rest => String.eqb id id' || storedBeforeStart id rest
  | _ :: rest => storedBeforeStart id rest
  end.

(** A part that is a plain field or a file field: it has a [value] or a
    [filename]. *)
Definition hasContent (p : Part) : bool :=
  match filename p, value p with
  | None, None => false
  | _, _ => true
  end.

Definition lacksName (p : Part) : bool :=
  match name p with
  | None => true
  | Some _ => false
  end.

(** The task a fresh [initTask] leaves in the heap. *)
Definition pendingTask (taskId : string) (session : Session)
    (options : Request) : Task :=
  {| _session := session; _id := taskId; _upload := Some (Finite 0);
     _totalUpload := Some (Finite 1); _status := Some "pending";
     _description := description options |}.

Definition propertyChange (task : loc) (propertyName : string)
    (v : JsValue) : Effect :=
  Notify {| eventName := propertyChangeEvent; object := task;
            detail := PropertyChangeData propertyName v |}.

(** The property changes notified by [initTask]. *)
Definition initEvents (task : loc) (options : Request) : list Effect :=
  [ propertyChange task "description" (of_optional_string (description options));
    propertyChange task "upload" (VNumber (Finite 0));
    propertyChange task "totalUpload" (VNumber (Finite 1));
    propertyChange task "status" (VString "pending") ].

(** The state a factory reaches from [s], where [receiver] is set, once
    the request is submitted and the task is stored in the cache. *)
Definition created (taskId : string) (session : Session) (options : Request)
    (request : UploadRequest) (s : State) : State :=
  {| taskCount := Task.increment (taskCount s);
     cache := <[taskId := length (heap s)]> (cache s);
     heap := heap s ++ [pendingTask taskId session options];
     ProgressReceiver := ProgressReceiver s;
     receiver := receiver s;
     hasNamespace := true;
     currentAppPath := currentAppPath s;
     effects := effects s ++ initEvents (length (heap s)) options ++
                  [StartUpload request; CacheStore taskId (length (heap s))] |}.

(** The state a factory leaves when building the request throws. *)
Definition rejected (s : State) : State :=
  {| taskCount := Task.increment (taskCount s);
     cache := cache s;
     heap := heap s;
     ProgressReceiver := ProgressReceiver s;
     receiver := receiver s;
     hasNamespace := true;
     currentAppPath := currentAppPath s;
     effects := effects s |}.

(** The state a factory leaves when [ensureReceiver] throws. *)
Definition stopped (s : State) : State :=
  {| taskCount := taskCount s;
     cache := cache s;
     heap := heap s;
     ProgressReceiver := true;
     receiver := receiver s;
     hasNamespace := true;
     currentAppPath := currentAppPath s;
     effects := effects s |}.

(** The heap the success handler leaves, and its notifications up to the
    progress event. *)
Definition completedHeap (uploadInfo : UploadInfo) (task : loc) (s : State)
    : list Task :=
  let total := normalizeTotal (getTotalBytes uploadInfo) in
  alter (withStatus "complete") task
    (alter (withTotalUpload total) task
       (alter (withUpload total) task (heap s))).

Definition completedProgress (uploadInfo : UploadInfo) (task : loc)
    : list Effect :=
  let total := normalizeTotal (getTotalBytes uploadInfo) in
  [ propertyChange task "upload" (VNumber total);
    propertyChange task "totalUpload" (VNumber total);
    propertyChange task "status" (VString "complete");
    Notify {| eventName := "progress"; object := task;
              detail := ProgressEventData total total |} ].

(** The events called [n], in order. *)
Definition namedEvents (n : string) (l : list Effect) : list EventData :=
  List.filter (λ e, String.eqb (eventName e) n) (eventsOf l).

(** The upload info a callback carries, if any. *)
Definition uploadInfoOf (c : Callback) : option UploadInfo :=
  match c with
  | onProgress uploadInfo | onError uploadInfo _ | onSuccess uploadInfo _
  | onCompleted uploadInfo => Some uploadInfo
  | onCompletedWhileNotObserving => None
  end.

(** What can happen to the module: a call of the application, on a
    session or on a task it was given, or a callback of the upload
    service. *)
Inductive Call : Type :=
  | CallUploadFile (session : Session) (fileUri : string) (options : Request)
  | CallMultipartUpload (session : Session) (params : list Part)
      (options : Request)
  | CallCancel (task : loc)
  | CallSetTotalUpload (task : loc) (v : number)
  | CallSetUpload (task : loc) (v : number)
  | CallSetStatus (task : loc) (v : string)
  | CallSetDescription (task : loc) (v : option string)
  | Delivered (c : Callback).

(** The state a call leaves, whether it returns or throws. *)
Definition perform (a : Call) (s : State) : State :=
  match a with
  | CallUploadFile session fileUri options =>
      (SessionMethods.uploadFile session fileUri options s).2
  | CallMultipartUpload session params options =>
      (SessionMethods.multipartUpload session params options s).2
  | CallCancel task => (Task.cancel task s).2
  | CallSetTotalUpload task v => (Task.setTotalUpload v task s).2
  | CallSetUpload task v => (Task.setUpload v task s).2
  | CallSetStatus task v => (Task.setStatus v task s).2
  | CallSetDescription task v => (Task.setDescription v task s).2
  | Delivered c => (deliver c s).2
  end.

(** A method of a task can only be called on a task that exists. *)
Definition callable (a : Call) (s : State) : Prop :=
  match a with
  | CallCancel task | CallSetTotalUpload task _ | CallSetUpload task _
  | CallSetStatus task _ | CallSetDescription task _ =>
      is_Some (heap s !! task)
  | CallUploadFile _ _ _ | CallMultipartUpload _ _ _ | Delivered _ => True
  end.

Inductive step : State → State → Prop :=
  | step_call a s : callable a s → step s (perform a s).

Inductive reachable (appPath : string) : State → Prop :=
  | reachable_initial : reachable appPath (initial appPath)
  | reachable_step s s' :
      reachable appPath s → step s s' → reachable appPath s'.

(** The claim that registration precedes submission, for one run of a
    factory from [s]: on normal return, the store of the new task's id is
    in the log before the request is started. *)
Definition registersBeforeSubmitting (m : M loc) (s : State) : Prop :=
  match m s with
  | (Return task, s') =>
      ∃ id, Task.id task s' = Some id ∧
            storedBeforeStart id (emitted m s) = true
  | (Throw _, _) => True
  end.

(** The claim that an unroutable callback is swallowed: the handler
    returns normally. *)
Definition swallowed (m : M unit) (s : State) : Prop :=
  (m s).1 = Return ().

(** ** Sample inputs *)

Module Sample.

Definition options : Request :=
  {| url := "https://example.org/upload"; method := None; headers := None;
     description := Some "photo"; androidAutoDeleteAfterUpload := None;
     androidMaxRetries := None |}.

Definition fresh : State := initial "/data/app".

(** A process in which the set-up is done and [receiver] is set. *)
Definition ready : State :=
  {| taskCount := 0%N; cache := ∅; heap := []; ProgressReceiver := true;
     receiver := true; hasNamespace := true; currentAppPath := "/data/app";
     effects := [] |}.

(** The state in which the first upload of the session "s1" is submitted
    and registered. *)
Definition uploading : State :=
  created "s1{1}" (session "s1") options
    (getBinaryRequest "s1{1}" options "/data/photo.jpg") ready.


Definition info (uploaded total : number) : UploadInfo :=
  {| getUploadId := "s1{1}"; getUploadedBytes := uploaded;
     getTotalBytes := total |}.

Definition unknown : UploadInfo :=
  {| getUploadId := "4f1c"; getUploadedBytes := Finite 50;
     getTotalBytes := Finite 200 |}.

Definition serverError : ServerResponse :=
  {| getCode := Some 500; getBodyString := "Internal Server Error" |}.

Definition ok : ServerResponse :=
  {| getCode := Some 200; getBodyString := "OK" |}.

Definition field : Part :=
  {| name := Some "title"; value := Some "holiday"; filename := None;
     destFilename := None; mimeType := None |}.

Definition file : Part :=
  {| name := Some "photo"; value := None; filename := Some "~/img/a.jpg";
     destFilename := None; mimeType := Some "image/jpeg" |}.

Definition nameless : Part :=
  {| name := None; value := Some "holiday"; filename := None;
     destFilename := None; mimeType := None |}.

End Sample.

(** ** Vocabulary for the further properties *)

(** Whether a string is free of a given character. *)
Fixpoint lacksChar (c : ascii) (s : string) : bool :=
  match s with
  | EmptyString => true
  | String a rest => negb (Ascii.eqb a c) && lacksChar c rest
  end.

(** The default remote name of a file part. *)
Definition baseName (fileName : string) : string :=
  substring_from (lastIndexOf "/" fileName + 1) fileName.

(** A part the loop of [getMultipartRequest] stops at: it has no name, or
    it has neither a filename nor a value. *)
Definition offending (p : Part) : bool :=
  lacksName p || negb (hasContent p).

(** What the loop throws at an offending part. *)
Definition partError (p : Part) : Error :=
  if lacksName p then JsError "You must have a `name` value" else TypeError.

(** The plain fields of a part list, in order. *)
Definition plainFields (params : list Part) : list (string * string) :=
  omap (λ p, match name p, filename p, value p with
             | Some n, None, Some v => Some (n, v)
             | _, _, _ => None
             end) params.

(** The file fields of a part list, in order, as the request keeps them. *)
Definition fileFields (appPath : string) (params : list Part)
    : list UploadFile :=
  omap (λ p, match name p, filename p with
             | Some n, Some f =>
                 Some {| filePath := expandAppRelative appPath f;
                         parameterName := n;
                         remoteFileName :=
                           truthy_or (destFilename p)
                             (baseName (expandAppRelative appPath f));
                         contentType := mimeType p |}
             | _, _ => None
             end) params.

(** The headers that have a value, in order. *)
Definition presentHeaders (hs : list (string * option string))
    : list (string * string) :=
  omap (λ h, match h.2 with Some v => Some (h.1, v) | None => None end) hs.

(** A request with its parameters and files replaced. *)
Definition withBody (ps : list (string * string)) (fs : list UploadFile)
    (r : UploadRequest) : UploadRequest :=
  {| protocol := protocol r; serverUrl := serverUrl r;
     fileToUpload := fileToUpload r; parameters := ps; filesToUpload := fs;
     autoDeleteFilesAfterSuccessfulUpload := autoDeleteFilesAfterSuccessfulUpload r;
     maxRetries := maxRetries r; requestHeaders := requestHeaders r;
     httpMethod := httpMethod r |}.

(** The retry count a request ends up with: a number that is zero or [NaN]
    is passed over. *)
Definition effectiveRetries (o : option number) : option number :=
  match o with
  | Some n => if number_falsy n then None else Some n
  | None => None
  end.

(** Every id of the cache was made by a factory, from a counter value
    that is already used up. *)
Definition minted (s : State) : Prop :=
  ∀ id task, cache s !! id = Some task →
    ∃ session n, id = Task.makeTaskId session n ∧ (n ≤ taskCount s)%N.

(** The cache and the tasks match one to one. *)
Definition matched (s : State) : Prop :=
  ∀ id task,
    cache s !! id = Some task ↔ ∃ t, heap s !! task = Some t ∧ _id t = id.

(** Nothing has happened yet but failed set-up: [receiver] is unset, no
    task exists and the log is empty. *)
Definition dormant (s : State) : Prop :=
  receiver s = false ∧ taskCount s = 0%N ∧ cache s = ∅ ∧ heap s = [] ∧
  effects s = [].

(** Only notifications about [task]. *)
Definition onlyNotifies (task : loc) (l : list Effect) : Prop :=
  Forall (λ e, ∃ ev, e = Notify ev ∧ object ev = task) l.

(** A field write that leaves what identifies a task alone. *)
Definition keepsIdentity (f : Task → Task) : Prop :=
  ∀ t, _id (f t) = _id t ∧ _session (f t) = _session t ∧
       _description (f t) = _description t.

(** The statuses the installed handlers and [initTask] write. *)
Definition knownStatus (o : option string) : bool :=
  match o with
  | Some st =>
      String.eqb st "pending" || String.eqb st "uploading"
      || String.eqb st "error" || String.eqb st "complete"
  | None => false
  end.

(** What a call that is no successful factory call does to the state: the
    set-up flags and the counter apart, it writes fields of one task with
    [f] and logs [l]. *)
Definition fieldWrite (a : Call) (f : Task → Task) (task : loc)
    (l : list Effect) (s s' : State) : Prop :=
  cache s' = cache s ∧
  taskCount s' = taskCount s ∧
  receiver s' = receiver s ∧
  heap s' = alter f task (heap s) ∧
  effects s' = effects s ++ l ∧
  requestsStarted l = [] ∧
  (∀ t, _id (f t) = _id t ∧ _session (f t) = _session t) ∧
  ((∀ v, a ≠ CallSetDescription task v) →
   ∀ t, _description (f t) = _description t) ∧
  ((∀ v, a ≠ CallSetStatus task v) →
   ∀ t, knownStatus (_status t) = true → knownStatus (_status (f t)) = true).

(** Every task has one of the known statuses. *)
Definition statusKnown (s : State) : Prop :=
  ∀ task t, heap s !! task = Some t → knownStatus (_status t) = true.

(** * Properties *)

(** Unfold the plumbing of a computation and evaluate what is known. *)
Ltac js_run :=
  cbv beta iota zeta delta
    [invoke notifyPropertyChanged notify emit update
     ensureUploadServiceNamespace ensureReceiver initializeProgressReceiver
     Task.nextTaskCount Task.cacheStore Task.fromId
     bind ret throw gets modify lift
     with_effects with_heap with_cache with_taskCount
     with_ProgressReceiver with_hasNamespace
     fst snd taskCount cache heap ProgressReceiver receiver hasNamespace
     currentAppPath effects].

(** Name the components of the state. *)
Ltac js_state s :=
  destruct s as [n c h pr rc ns ap ef];
  cbn [taskCount cache heap ProgressReceiver receiver hasNamespace
       currentAppPath effects] in *.

Section Basics.

Lemma emitted_app {A} (m : M A) (s : State) (l : list Effect) :
  effects (m s).2 = effects s ++ l → emitted m s = l.
Proof. intros E. unfold emitted. rewrite E. apply drop_app_length. Qed.

Lemma alter_snoc (f : Task → Task) (h : list Task) (t : Task) :
  alter f (length h) (h ++ [t]) = h ++ [f t].
Proof.
  induction h as [|x h IH]; [reflexivity|].
  simpl. f_equal. exact IH.
Qed.

Lemma lookup_snoc (h : list Task) (t : Task) :
  (h ++ [t]) !! length h = Some t.
Proof. induction h as [|x h IH]; [reflexivity|exact IH]. Qed.

Lemma initTask_run taskId session options s :
  Task.initTask taskId session options s =
    (Return (length (heap s)),
     with_effects (effects s ++ initEvents (length (heap s)) options)
       (with_heap (heap s ++ [pendingTask taskId session options]) s)).
Proof.
  unfold Task.initTask, newTask, Task.setDescription, Task.setUpload,
    Task.setTotalUpload, Task.setStatus.
  js_run. rewrite !alter_snoc. cbn.
  rewrite <- !app_assoc. reflexivity.
Qed.

End Basics.

Section Creation.

Lemma create_run session file options s :
  Task.create session file options s =
    if receiver s
    then (Return (length (heap s)),
          created (Task.makeTaskId session (Task.increment (taskCount s)))
            session options
            (getBinaryRequest
               (Task.makeTaskId session (Task.increment (taskCount s)))
               options file)
            s)
    else (Throw TypeError, stopped s).
Proof.
  js_state s. unfold Task.create. js_run.
  destruct ns, rc, pr; js_run; try reflexivity.
  all: rewrite initTask_run; js_run.
  all: rewrite lookup_snoc; js_run.
  all: unfold created; cbn; rewrite <- !app_assoc; reflexivity.
Qed.

Lemma createMultiPart_run session params options s :
  Task.createMultiPart session params options s =
    if receiver s
    then match getMultipartRequest (currentAppPath s)
                 (Task.makeTaskId session (Task.increment (taskCount s)))
                 options params with
         | Return request =>
             (Return (length (heap s)),
              created (Task.makeTaskId session (Task.increment (taskCount s)))
                session options request s)
         | Throw e => (Throw e, rejected s)
         end
    else (Throw TypeError, stopped s).
Proof.
  js_state s. unfold Task.createMultiPart. js_run.
  destruct ns, rc, pr; js_run; try reflexivity.
  all: destruct (getMultipartRequest _ _ _ _) as [request|e]; js_run;
    [|reflexivity].
  all: rewrite initTask_run; js_run.
  all: rewrite lookup_snoc; js_run.
  all: unfold created; cbn; rewrite <- !app_assoc; reflexivity.
Qed.

End Creation.

Section Callbacks.

Variable uploadInfo : UploadInfo.

(** *** A callback whose id is not in the cache *)

Lemma progress_unroutable s :
  cache s !! getUploadId uploadInfo = None →
  onProgressReceiverProgress uploadInfo s = (Throw TypeError, s).
Proof.
  intros unknown. js_state s. unfold onProgressReceiverProgress. js_run.
  by rewrite unknown.
Qed.

Lemma cancelled_unroutable s :
  cache s !! getUploadId uploadInfo = None →
  onProgressReceiverCancelled uploadInfo s = (Throw TypeError, s).
Proof.
  intros unknown. js_state s. unfold onProgressReceiverCancelled. js_run.
  by rewrite unknown.
Qed.

Lemma error_unroutable s error :
  cache s !! getUploadId uploadInfo = None →
  onProgressReceiverError uploadInfo error s = (Throw TypeError, s).
Proof.
  intros unknown. js_state s. unfold onProgressReceiverError. js_run.
  by rewrite unknown.
Qed.

Lemma completed_unroutable s response :
  cache s !! getUploadId uploadInfo = None →
  onProgressReceiverCompleted uploadInfo response s = (Throw TypeError, s).
Proof.
  intros unknown. js_state s. unfold onProgressReceiverCompleted. js_run.
  by rewrite unknown.
Qed.

(** *** A callback for a task of the cache *)

Lemma progress_run s task :
  cache s !! getUploadId uploadInfo = Some task →
  onProgressReceiverProgress uploadInfo s =
    (Return (),
     with_effects
       (effects s ++
        [ propertyChange task "totalUpload" (VNumber (getTotalBytes uploadInfo));
          propertyChange task "upload" (VNumber (getUploadedBytes uploadInfo));
          propertyChange task "status" (VString "uploading");
          Notify {| eventName := "progress"; object := task;
                    detail := ProgressEventData (getUploadedBytes uploadInfo)
                                (getTotalBytes uploadInfo) |} ])
       (with_heap
          (alter (withStatus "uploading") task
             (alter (withUpload (getUploadedBytes uploadInfo)) task
                (alter (withTotalUpload (getTotalBytes uploadInfo)) task
                   (heap s))))
          s)).
Proof.
  intros known. js_state s.
  unfold onProgressReceiverProgress, Task.setTotalUpload, Task.setUpload,
    Task.setStatus.
  js_run. rewrite known. js_run.
  rewrite <- !app_assoc. reflexivity.
Qed.

Lemma cancelled_run s task :
  cache s !! getUploadId uploadInfo = Some task →
  onProgressReceiverCancelled uploadInfo s =
    (Return (),
     with_effects
       (effects s ++
        [ propertyChange task "status" (VString "cancelled");
          Notify {| eventName := "cancelled"; object := task;
                    detail := NoDetail |} ])
       (with_heap (alter (withStatus "cancelled") task (heap s)) s)).
Proof.
  intros known. js_state s.
  unfold onProgressReceiverCancelled, Task.setStatus.
  js_run. rewrite known. js_run.
  rewrite <- !app_assoc. reflexivity.
Qed.

Lemma error_userCancelled_run s task :
  cache s !! getUploadId uploadInfo = Some task →
  onProgressReceiverError uploadInfo UserCancelledUploadException s =
    (Return (),
     with_effects
       (effects s ++
        [ propertyChange task "status" (VString "error");
          Notify {| eventName := "cancelled"; object := task;
                    detail := NoDetail |} ])
       (with_heap (alter (withStatus "error") task (heap s)) s)).
Proof.
  intros known. js_state s.
  unfold onProgressReceiverError, Task.setStatus.
  js_run. rewrite known. js_run.
  rewrite <- !app_assoc. reflexivity.
Qed.

Lemma error_uploadError_run s task serverResponse :
  cache s !! getUploadId uploadInfo = Some task →
  onProgressReceiverError uploadInfo (UploadError serverResponse) s =
    (Return (),
     with_effects
       (effects s ++
        [ propertyChange task "status" (VString "error");
          Notify {| eventName := "error"; object := task;
                    detail := ErrorEventData
                                (ExceptionCausedBy (UploadError serverResponse))
                                (-1) serverResponse |} ])
       (with_heap (alter (withStatus "error") task (heap s)) s)).
Proof.
  intros known. js_state s.
  unfold onProgressReceiverError, Task.setStatus.
  js_run. rewrite known. js_run.
  rewrite <- !app_assoc. reflexivity.
Qed.

Lemma error_other_run s task message :
  cache s !! getUploadId uploadInfo = Some task →
  onProgressReceiverError uploadInfo (OtherThrowable message) s =
    (Return (),
     with_effects
       (effects s ++
        [ propertyChange task "status" (VString "error");
          Notify {| eventName := "error"; object := task;
                    detail := NoDetail |} ])
       (with_heap (alter (withStatus "error") task (heap s)) s)).
Proof.
  intros known. js_state s.
  unfold onProgressReceiverError, Task.setStatus.
  js_run. rewrite known. js_run.
  rewrite <- !app_assoc. reflexivity.
Qed.

Lemma completed_run s task r :
  cache s !! getUploadId uploadInfo = Some task →
  onProgressReceiverCompleted uploadInfo (Some r) s =
    (Return (),
     with_effects
       (effects s ++ completedProgress uploadInfo task ++
        [ Notify {| eventName := "responded"; object := task;
                    detail := ResultEventData (getBodyString r)
                                (default (-1) (getCode r)) |};
          Notify {| eventName := "complete"; object := task;
                    detail := CompleteEventData (default (-1) (getCode r))
                                (Some r) |} ])
       (with_heap (completedHeap uploadInfo task s) s)).
Proof.
  intros known. js_state s.
  unfold onProgressReceiverCompleted, Task.setTotalUpload, Task.setUpload,
    Task.setStatus, completedProgress, completedHeap, responseCodeOf.
  js_run. rewrite known. js_run.
  rewrite <- !app_assoc. destruct (getCode r); reflexivity.
Qed.

(** Without a response object the handler stops at
    [response.getBodyString()], after the progress event. *)
Lemma completed_null_run s task :
  cache s !! getUploadId uploadInfo = Some task →
  onProgressReceiverCompleted uploadInfo None s =
    (Throw TypeError,
     with_effects (effects s ++ completedProgress uploadInfo task)
       (with_heap (completedHeap uploadInfo task s) s)).
Proof.
  intros known. js_state s.
  unfold onProgressReceiverCompleted, Task.setTotalUpload, Task.setUpload,
    Task.setStatus, completedProgress, completedHeap.
  js_run. rewrite known. js_run.
  rewrite <- !app_assoc. reflexivity.
Qed.

End Callbacks.

Section Normalisation.

Lemma normalizeTotal_cases total :
  normalizeTotal total =
    match total with
    | Finite T => if 0 <? T then Finite T else Finite 1
    | NaN | PosInfinity | NegInfinity => Finite 1
    end.
Proof.
  destruct total as [T| | |]; try reflexivity.
  unfold normalizeTotal; cbn.
  destruct (Z.eqb_spec T 0), (Z.leb_spec T 0), (Z.ltb_spec 0 T);
    cbn; try reflexivity; lia.
Qed.

Lemma normalizeTotal_ge_one total :
  number_ge_one (normalizeTotal total) = true.
Proof.
  rewrite normalizeTotal_cases.
  destruct total as [T| | |]; try reflexivity.
  destruct (Z.ltb_spec 0 T); cbn; [|reflexivity].
  apply Z.leb_le. lia.
Qed.

End Normalisation.

Section Multipart.

Variable appPath : string.

(** The loop stops at the first part without a name, whatever came
    before it. *)
Lemma addParts_nameless_throws params :
  existsb lacksName params = true →
  ∀ request, ∃ e, addParts appPath params request = Throw e.
Proof.
  induction params as [|p params IH]; [discriminate|].
  intros E request. cbn in *. unfold lacksName in E at 1.
  destruct (name p) as [curName|]; [|eauto].
  destruct (filename p) as [fileName|]; [by apply IH|].
  destruct (value p) as [v|]; [by apply IH|eauto].
Qed.


Lemma getMultipartRequest_method taskId options params request :
  getMultipartRequest appPath taskId options params = Return request →
  httpMethod request = Some (truthy_or (method options) "GET").
Proof.
  unfold getMultipartRequest.
  destruct (addParts _ _ _); [|discriminate].
  intros [= <-]. reflexivity.
Qed.

End Multipart.

Lemma truthy_or_falsy o d : string_falsy o = true → truthy_or o d = d.
Proof.
  destruct o as [m|]; [|reflexivity].
  cbn. intros ->. reflexivity.
Qed.

Lemma getBinaryRequest_method taskId options file :
  httpMethod (getBinaryRequest taskId options file) =
    Some (truthy_or (method options) "GET").
Proof. reflexivity. Qed.

(** ** The parts of a multipart request *)

Section Parts.

Variable appPath : string.

Lemma withBody_id request :
  withBody (parameters request) (filesToUpload request) request = request.
Proof. by destruct request. Qed.

Lemma addParts_spec params request :
  addParts appPath params request =
    match List.find offending params with
    | Some p => Throw (partError p)
    | None =>
        Return (withBody (parameters request ++ plainFields params)
                  (filesToUpload request ++ fileFields appPath params) request)
    end.
Proof.
  revert request. induction params as [|p params IH]; intros request.
  - cbn. by rewrite !app_nil_r, withBody_id.
  - destruct p as [[n|] [v|] [f|] d m];
      cbn [addParts List.find offending lacksName hasContent partError
           name value filename destFilename mimeType orb negb];
      try reflexivity.
    all: rewrite IH; destruct (List.find offending params); [reflexivity|].
    all: unfold plainFields, fileFields, baseName, withBody; cbn;
      by rewrite <- ?app_assoc.
Qed.

Lemma getMultipartRequest_spec taskId options params :
  getMultipartRequest appPath taskId options params =
    match List.find offending params with
    | Some p => Throw (partError p)
    | None =>
        Return (setRequestOptions
                  (withBody (plainFields params) (fileFields appPath params)
                     (newUploadRequest MultipartUploadRequest (url options)))
                  options)
    end.
Proof.
  unfold getMultipartRequest. rewrite addParts_spec.
  by destruct (List.find offending params).
Qed.

End Parts.


Lemma emitted_nil {A} (m : M A) (s : State) :
  effects (m s).2 = effects s → emitted m s = [].
Proof. intros E. apply emitted_app. by rewrite app_nil_r. Qed.

(** * The claims *)

(** C1.  An error callback that reports a user cancellation, delivered for
    the first upload of session "s1": the handler returns, notifies exactly
    one [cancelled] event and no [error] event, but the status it writes is
    "error", not "cancelled" (the handler sets the status before it looks at
    the cause). *)
Theorem userCancelled_error_callback_sets_status_error :
  let callback :=
    deliver (onError (Sample.info (Finite 50) (Finite 200))
               UserCancelledUploadException) in
  cache Sample.uploading !! "s1{1}" = Some 0%nat ∧
  (callback Sample.uploading).1 = Return () ∧
  Task.status 0%nat (callback Sample.uploading).2 = Some "error" ∧
  Task.status 0%nat (callback Sample.uploading).2 ≠ Some "cancelled" ∧
  countNamed "cancelled" (emitted callback Sample.uploading) = 1%nat ∧
  countNamed "error" (emitted callback Sample.uploading) = 0%nat.
Proof. vm_compute. repeat split; congruence. Qed.

(** C3.  An error callback whose cause is an upload error carrying a
    server response with HTTP code 500: the [error] event holds the wrapped
    error and the raw response, but its response code is the constant -1
    although the code of the response is at hand. *)
Theorem uploadError_event_response_code_is_minus_one :
  let callback :=
    deliver (onError (Sample.info (Finite 50) (Finite 200))
               (UploadError Sample.serverError)) in
  semanticEvents (emitted callback Sample.uploading) =
    [ {| eventName := "error"; object := 0%nat;
         detail := ErrorEventData
                     (ExceptionCausedBy (UploadError Sample.serverError))
                     (-1) Sample.serverError |} ] ∧
  getCode Sample.serverError = Some 500.
Proof. vm_compute. split; reflexivity. Qed.

(** C4, as stated, fails: a progress callback whose upload id is not in the
    cache is not swallowed, the handler throws. *)
Lemma unroutable_progress_is_not_swallowed :
  cache Sample.uploading !! getUploadId Sample.unknown = None ∧
  ¬ swallowed (deliver (onProgress Sample.unknown)) Sample.uploading.
Proof. split; [reflexivity|]. vm_compute. discriminate. Qed.

(** C4, amended.  A callback whose upload id does not resolve to a task of
    the cache makes its handler throw a [TypeError] at the first use of the
    missing task; the module state is left as it was, so no field of any
    task changes and no event is notified.  The same holds for the
    cancellation handler, which the delegate does not install. *)
Theorem unroutable_callback_throws (c : Callback) (uploadInfo : UploadInfo)
    (s : State) :
  uploadInfoOf c = Some uploadInfo →
  cache s !! getUploadId uploadInfo = None →
  deliver c s = (Throw TypeError, s) ∧
  onProgressReceiverCancelled uploadInfo s = (Throw TypeError, s) ∧
  emitted (deliver c) s = [].
Proof.
  intros Hc unknown.
  assert (deliver c s = (Throw TypeError, s)) as E.
  { destruct c; cbn in Hc; try discriminate; injection Hc as ->;
      cbn [deliver].
    - by apply progress_unroutable.
    - by apply error_unroutable.
    - by apply completed_unroutable.
    - by apply progress_unroutable. }
  split; [exact E|]. split; [by apply cancelled_unroutable|].
  apply emitted_app. rewrite E. cbn. by rewrite app_nil_r.
Qed.

Lemma unroutable_callback_throws_witness :
  deliver (onSuccess Sample.unknown (Some Sample.ok)) Sample.uploading =
    (Throw TypeError, Sample.uploading) ∧
  onProgressReceiverCancelled Sample.unknown Sample.uploading =
    (Throw TypeError, Sample.uploading) ∧
  emitted (deliver (onSuccess Sample.unknown (Some Sample.ok)))
    Sample.uploading = [].
Proof.
  apply (unroutable_callback_throws
           (onSuccess Sample.unknown (Some Sample.ok)) Sample.unknown
           Sample.uploading); reflexivity.
Defined.

(** C5.  A success callback for a task of the cache, whatever total the
    native side reports and whatever the response is: the total is pinned
    to 1 when it is not finite, zero or negative and kept otherwise; both
    byte counts of the task are set to that total; exactly one [progress]
    event is notified, with [currentBytes] and [totalBytes] equal to it;
    and it is at least 1. *)
Theorem success_reports_complete_progress (uploadInfo : UploadInfo)
    (response : option ServerResponse) (s : State) (task : loc) (t : Task) :
  cache s !! getUploadId uploadInfo = Some task →
  heap s !! task = Some t →
  let total := normalizeTotal (getTotalBytes uploadInfo) in
  let handler := onProgressReceiverCompleted uploadInfo response in
  total = match getTotalBytes uploadInfo with
          | Finite T => if 0 <? T then Finite T else Finite 1
          | NaN | PosInfinity | NegInfinity => Finite 1
          end ∧
  Task.upload task (handler s).2 = Some total ∧
  Task.totalUpload task (handler s).2 = Some total ∧
  namedEvents "progress" (emitted handler s) =
    [ {| eventName := "progress"; object := task;
         detail := ProgressEventData total total |} ] ∧
  number_ge_one total = true.
Proof.
  intros known live total handler.
  split; [apply normalizeTotal_cases|].
  assert (heap (handler s).2 = completedHeap uploadInfo task s ∧
          ∃ rest, effects (handler s).2 =
                    effects s ++ completedProgress uploadInfo task ++ rest ∧
                  namedEvents "progress" rest = []) as (Hh & rest & He & Hr).
  { subst handler. destruct response as [r|].
    - rewrite (completed_run _ _ _ r known). split; [reflexivity|].
      eexists. split; reflexivity.
    - rewrite (completed_null_run _ _ _ known). split; [reflexivity|].
      exists []. split; [|reflexivity].
      cbn [snd effects with_effects]. by rewrite app_nil_r. }
  repeat split.
  - unfold Task.upload. rewrite Hh. unfold completedHeap.
    rewrite !list_lookup_alter_eq, live. reflexivity.
  - unfold Task.totalUpload. rewrite Hh. unfold completedHeap.
    rewrite !list_lookup_alter_eq, live. reflexivity.
  - rewrite (emitted_app _ _ _ He).
    unfold namedEvents in *. cbn. rewrite Hr. reflexivity.
  - apply normalizeTotal_ge_one.
Qed.

Lemma success_reports_complete_progress_witness :
  let handler :=
    onProgressReceiverCompleted (Sample.info (Finite 0) (Finite 0))
      (Some Sample.ok) in
  Task.upload 0 (handler Sample.uploading).2 = Some (Finite 1) ∧
  Task.totalUpload 0 (handler Sample.uploading).2 = Some (Finite 1) ∧
  namedEvents "progress" (emitted handler Sample.uploading) =
    [ {| eventName := "progress"; object := 0%nat;
         detail := ProgressEventData (Finite 1) (Finite 1) |} ].
Proof.
  destruct (success_reports_complete_progress
              (Sample.info (Finite 0) (Finite 0)) (Some Sample.ok)
              Sample.uploading 0%nat
              (pendingTask "s1{1}" (session "s1") Sample.options)
              eq_refl eq_refl) as (_ & Hu & Ht & Hp & _).
  exact (conj Hu (conj Ht Hp)).
Defined.

(** C6.  A success callback for a task of the cache notifies exactly three
    semantic events, in this order: [progress] with the normalised counts
    (the reported total, or 1 when that is not finite, zero or negative),
    [responded] with the body string and the status code (-1 when the
    response has no code to read), [complete] with the same code and the
    response object. *)
Theorem success_notifies_three_events (uploadInfo : UploadInfo)
    (r : ServerResponse) (s : State) (task : loc) :
  cache s !! getUploadId uploadInfo = Some task →
  let total := match getTotalBytes uploadInfo with
               | Finite T => if 0 <? T then Finite T else Finite 1
               | NaN | PosInfinity | NegInfinity => Finite 1
               end in
  let code := default (-1) (getCode r) in
  (onProgressReceiverCompleted uploadInfo (Some r) s).1 = Return () ∧
  semanticEvents (emitted (onProgressReceiverCompleted uploadInfo (Some r)) s) =
    [ {| eventName := "progress"; object := task;
         detail := ProgressEventData total total |};
      {| eventName := "responded"; object := task;
         detail := ResultEventData (getBodyString r) code |};
      {| eventName := "complete"; object := task;
         detail := CompleteEventData code (Some r) |} ].
Proof.
  intros known total code. unfold total.
  rewrite <- normalizeTotal_cases.
  rewrite (completed_run _ _ _ r known). split; [reflexivity|].
  erewrite emitted_app;
    [|rewrite (completed_run _ _ _ r known); reflexivity].
  reflexivity.
Qed.

Lemma success_notifies_three_events_witness :
  semanticEvents
    (emitted (onProgressReceiverCompleted (Sample.info (Finite 0) (Finite 0))
                (Some Sample.ok)) Sample.uploading) =
    [ {| eventName := "progress"; object := 0%nat;
         detail := ProgressEventData (Finite 1) (Finite 1) |};
      {| eventName := "responded"; object := 0%nat;
         detail := ResultEventData "OK" 200 |};
      {| eventName := "complete"; object := 0%nat;
         detail := CompleteEventData 200 (Some Sample.ok) |} ].
Proof.
  exact (proj2 (success_notifies_three_events
                  (Sample.info (Finite 0) (Finite 0)) Sample.ok
                  Sample.uploading 0%nat eq_refl)).
Defined.

(** C9.  [cancel()] on a live task returns after one call to
    [UploadService.stopUpload] with the id of the task: the heap (so every
    field of every task), the cache and the counter are as before and no
    event is notified. *)
Theorem cancel_only_stops_the_upload (s : State) (task : loc) (t : Task) :
  heap s !! task = Some t →
  (Task.cancel task s).1 = Return () ∧
  emitted (Task.cancel task) s = [StopUpload (_id t)] ∧
  heap (Task.cancel task s).2 = heap s ∧
  cache (Task.cancel task s).2 = cache s ∧
  taskCount (Task.cancel task s).2 = taskCount s ∧
  Task.status task (Task.cancel task s).2 = Task.status task s.
Proof.
  intros live.
  assert (Task.cancel task s =
            (Return (), with_effects (effects s ++ [StopUpload (_id t)]) s)) as E.
  { js_state s. unfold Task.cancel. js_run. rewrite live. js_run. reflexivity. }
  split; [by rewrite E|].
  split; [apply emitted_app; by rewrite E|].
  rewrite E. repeat split.
Qed.

Lemma cancel_only_stops_the_upload_witness :
  (Task.cancel 0 Sample.uploading).1 = Return () ∧
  emitted (Task.cancel 0) Sample.uploading = [StopUpload "s1{1}"] ∧
  heap (Task.cancel 0 Sample.uploading).2 = heap Sample.uploading ∧
  cache (Task.cancel 0 Sample.uploading).2 = cache Sample.uploading ∧
  taskCount (Task.cancel 0 Sample.uploading).2 = taskCount Sample.uploading ∧
  Task.status 0 (Task.cancel 0 Sample.uploading).2 =
    Task.status 0 Sample.uploading.
Proof.
  exact (cancel_only_stops_the_upload Sample.uploading 0%nat
           (pendingTask "s1{1}" (session "s1") Sample.options) eq_refl).
Defined.

(** C2, as stated, fails: in a process whose receiver is set, the first
    upload returns a task whose store into the cache is not in the log
    before the request is started. *)
Lemma create_does_not_register_before_submitting :
  receiver Sample.ready = true ∧
  ¬ registersBeforeSubmitting
      (Task.create (session "s1") "/data/photo.jpg" Sample.options)
      Sample.ready.
Proof.
  split; [reflexivity|].
  unfold registersBeforeSubmitting. rewrite create_run.
  intros (id & _ & H). vm_compute in H. discriminate.
Qed.

(** C2, amended.  Once [receiver] is set, [Task.create] returns, and
    [Task.createMultiPart] returns whenever its request can be built; the
    task they return is new, and what they do after the property changes
    of [initTask] is, in this order, to submit the request and then to
    store the task in the cache under its id.  On return the id resolves,
    in the cache, to that task, whose [_id] is that id.  (With [receiver]
    unset the factories stop in [ensureReceiver]: see C8.) *)
Theorem factories_submit_then_register (session : Session) (file : string)
    (params : list Part) (options : Request) (s : State) :
  receiver s = true →
  let taskId := Task.makeTaskId session (Task.increment (taskCount s)) in
  let task := length (heap s) in
  let registered (m : M loc) (request : UploadRequest) :=
    (m s).1 = Return task ∧
    emitted m s =
      initEvents task options ++ [StartUpload request; CacheStore taskId task] ∧
    storedBeforeStart taskId (emitted m s) = false ∧
    heap s !! task = None ∧
    cache (m s).2 !! taskId = Some task ∧
    Task.id task (m s).2 = Some taskId in
  registered (Task.create session file options)
    (getBinaryRequest taskId options file) ∧
  match getMultipartRequest (currentAppPath s) taskId options params with
  | Return request =>
      registered (Task.createMultiPart session params options) request
  | Throw e =>
      Task.createMultiPart session params options s = (Throw e, rejected s)
  end.
Proof.
  intros Hr taskId task registered.
  assert (∀ m request,
            m s = (Return task, created taskId session options request s) →
            registered m request) as R.
  { intros m request E. unfold registered.
    assert (emitted m s =
              initEvents task options ++
                [StartUpload request; CacheStore taskId task]) as Em.
    { apply emitted_app. by rewrite E. }
    rewrite Em, E. cbn.
    repeat split.
    - apply lookup_ge_None. reflexivity.
    - apply lookup_insert_eq.
    - unfold Task.id, Task.field. cbn.
      unfold task. by rewrite lookup_snoc. }
  split.
  - apply R. by rewrite create_run, Hr.
  - pose proof (createMultiPart_run session params options s) as E.
    rewrite Hr in E. fold taskId in E.
    destruct (getMultipartRequest _ _ _ _) as [request|e]; [|exact E].
    apply R, E.
Qed.

Lemma factories_submit_then_register_witness :
  let call := Task.create (session "s1") "/data/photo.jpg" Sample.options in
  (call Sample.ready).1 = Return 0%nat ∧
  emitted call Sample.ready =
    initEvents 0 Sample.options ++
      [ StartUpload (getBinaryRequest "s1{1}" Sample.options "/data/photo.jpg");
        CacheStore "s1{1}" 0 ] ∧
  cache (call Sample.ready).2 !! "s1{1}" = Some 0%nat.
Proof.
  destruct (factories_submit_then_register (session "s1") "/data/photo.jpg"
              [Sample.field] Sample.options Sample.ready eq_refl)
    as [(H1 & H2 & _ & _ & H5 & _) _].
  exact (conj H1 (conj H2 H5)).
Defined.




(** C8.  The first upload of the session "s1" in a fresh process, for any
    file and options: [uploadFile] returns no task.  It throws a
    [TypeError] in [ensureReceiver], at [new ProgressReceiver()], before
    the counter is incremented: the counter is still 0 and no task exists,
    is registered or submitted. *)
Theorem first_upload_of_s1_throws (appPath fileUri : string)
    (options : Request) :
  let call := SessionMethods.uploadFile (session "s1") fileUri options in
  call (initial appPath) = (Throw TypeError, stopped (initial appPath)) ∧
  taskCount (call (initial appPath)).2 = 0%N ∧
  cache (call (initial appPath)).2 = ∅ ∧
  heap (call (initial appPath)).2 = [] ∧
  effects (call (initial appPath)).2 = [].
Proof.
  intros call. unfold call, SessionMethods.uploadFile.
  rewrite create_run. repeat split.
Qed.

(** What the factory does when it gets past [ensureReceiver] with the
    counter at 0: the values C8 names. *)
Lemma first_upload_with_receiver_set (fileUri : string) (options : Request)
    (s : State) :
  receiver s = true → taskCount s = 0%N →
  let call := SessionMethods.uploadFile (session "s1") fileUri options in
  ∃ task,
    (call s).1 = Return task ∧
    Task.id task (call s).2 = Some "s1{1}" ∧
    Task.status task (call s).2 = Some "pending" ∧
    Task.upload task (call s).2 = Some (Finite 0) ∧
    Task.totalUpload task (call s).2 = Some (Finite 1).
Proof.
  intros Hr Hn call. exists (length (heap s)).
  unfold call, SessionMethods.uploadFile. rewrite create_run, Hr, Hn.
  unfold Task.id, Task.field, Task.status, Task.upload, Task.totalUpload.
  cbn [fst snd heap created]. rewrite lookup_snoc. repeat split.
Qed.

(** C10.  When [options.method] is absent or empty, both request builders
    set the method "GET", and every request a factory submits has it. *)
Theorem method_defaults_to_GET (appPath taskId : string) (session : Session)
    (file : string) (params : list Part) (options : Request) (s : State) :
  string_falsy (method options) = true →
  httpMethod (getBinaryRequest taskId options file) = Some "GET" ∧
  (∀ request,
     getMultipartRequest appPath taskId options params = Return request →
     httpMethod request = Some "GET") ∧
  Forall (λ request, httpMethod request = Some "GET")
    (requestsStarted (emitted (Task.create session file options) s)) ∧
  Forall (λ request, httpMethod request = Some "GET")
    (requestsStarted (emitted (Task.createMultiPart session params options) s)).
Proof.
  intros F.
  assert (∀ id, httpMethod (getBinaryRequest id options file) = Some "GET")
    as B.
  { intros id. rewrite getBinaryRequest_method. by rewrite truthy_or_falsy. }
  assert (∀ ap id request,
            getMultipartRequest ap id options params = Return request →
            httpMethod request = Some "GET") as P.
  { intros ap id request G.
    rewrite (getMultipartRequest_method _ _ _ _ _ G).
    by rewrite truthy_or_falsy. }
  split; [apply B|]. split; [apply P|]. split.
  - pose proof (create_run session file options s) as E.
    destruct (receiver s).
    + erewrite emitted_app; [|rewrite E; reflexivity].
      cbn. constructor; [apply B|constructor].
    + rewrite emitted_nil; [constructor|by rewrite E].
  - pose proof (createMultiPart_run session params options s) as E.
    destruct (receiver s).
    + destruct (getMultipartRequest _ _ _ _) as [request|e] eqn:G.
      * erewrite emitted_app; [|rewrite E; reflexivity].
        cbn. constructor; [by eapply P|constructor].
      * rewrite emitted_nil; [constructor|by rewrite E].
    + rewrite emitted_nil; [constructor|by rewrite E].
Qed.

Lemma method_defaults_to_GET_witness :
  httpMethod (getBinaryRequest "s1{1}" Sample.options "/data/photo.jpg")
    = Some "GET" ∧
  Forall (λ request, httpMethod request = Some "GET")
    (requestsStarted
       (emitted (Task.createMultiPart (session "s1")
                   [Sample.field; Sample.file] Sample.options)
          Sample.ready)) ∧
  requestsStarted
    (emitted (Task.createMultiPart (session "s1") [Sample.field; Sample.file]
                Sample.options) Sample.ready) ≠ [].
Proof.
  destruct (method_defaults_to_GET "/data/app" "s1{1}" (session "s1")
              "/data/photo.jpg" [Sample.field; Sample.file] Sample.options
              Sample.ready eq_refl) as (H1 & _ & _ & H4).
  split; [exact H1|]. split; [exact H4|]. vm_compute. discriminate.
Defined.

(** * Further properties *)

(** ** Strings *)

Section Strings.

Lemma append_nil (b : string) : "" +:+ b = b.
Proof. reflexivity. Qed.

Lemma append_cons (x : ascii) (a b : string) :
  String x a +:+ b = String x (a +:+ b).
Proof. reflexivity. Qed.

Lemma append_assoc (a b c : string) : (a +:+ b) +:+ c = a +:+ (b +:+ c).
Proof.
  induction a as [|x a IH]; [reflexivity|].
  rewrite !append_cons. by f_equal.
Qed.

Lemma length_append (a b : string) :
  String.length (a +:+ b) = (String.length a + String.length b)%nat.
Proof.
  induction a as [|x a IH]; [reflexivity|].
  rewrite append_cons. cbn. by rewrite IH.
Qed.

Lemma append_inv_tail (a b t : string) : a +:+ t = b +:+ t → a = b.
Proof.
  revert b. induction a as [|x a IH]; intros [|y b] E;
    rewrite ?append_cons, ?append_nil in E.
  - reflexivity.
  - apply (f_equal String.length) in E. cbn in E.
    rewrite length_append in E. lia.
  - apply (f_equal String.length) in E. cbn in E.
    rewrite length_append in E. lia.
  - injection E as -> E. f_equal. by apply IH.
Qed.

Lemma lacksChar_append c (a b : string) :
  lacksChar c (a +:+ b) = lacksChar c a && lacksChar c b.
Proof.
  induction a as [|x a IH]; [reflexivity|].
  rewrite append_cons. cbn. rewrite IH. by rewrite andb_assoc.
Qed.

Lemma lacksChar_around c (a d : string) : lacksChar c (a +:+ String c d) = false.
Proof.
  rewrite lacksChar_append. cbn. rewrite Ascii.eqb_refl. cbn.
  apply andb_false_r.
Qed.

(** A string splits in one way only around its last occurrence of [c]. *)
Lemma split_at_last c (a b d1 d2 : string) :
  lacksChar c d1 = true → lacksChar c d2 = true →
  a +:+ String c d1 = b +:+ String c d2 → a = b ∧ d1 = d2.
Proof.
  intros H1 H2. revert b.
  induction a as [|x a IH]; intros [|y b] E;
    rewrite ?append_cons, ?append_nil in E.
  - by injection E as ->.
  - injection E as <- E. rewrite E, lacksChar_around in H1. discriminate.
  - injection E as -> E. rewrite <- E, lacksChar_around in H2. discriminate.
  - injection E as -> E. destruct (IH _ E) as [-> ->]. done.
Qed.

Lemma pretty_N_go_lacksChar c (x : N) (s : string) :
  (∀ d, pretty_N_char d ≠ c) →
  lacksChar c s = true → lacksChar c (pretty_N_go x s) = true.
Proof.
  intros Hc. revert s.
  induction (N.lt_wf_0 x) as [x _ IH]; intros s Hs.
  destruct (decide (x = 0)%N) as [->|Hx]; [by rewrite pretty_N_go_0|].
  rewrite pretty_N_go_step by lia.
  apply IH; [apply N.div_lt; lia|].
  cbn. rewrite Hs, andb_true_r.
  apply negb_true_iff, Ascii.eqb_neq, Hc.
Qed.

Lemma pretty_N_lacks_brace (n : N) : lacksChar "{" (pretty n) = true.
Proof.
  unfold pretty, pretty_N. case_decide; [reflexivity|].
  apply pretty_N_go_lacksChar; [|reflexivity].
  intros d. unfold pretty_N_char. by repeat case_match.
Qed.

End Strings.

(** ** Task ids *)

Lemma makeTaskId_split (session : Session) (n : N) :
  Task.makeTaskId session n =
    Session_id session +:+ String "{" (pretty n +:+ "}").
Proof. unfold Task.makeTaskId. by rewrite !append_assoc. Qed.

Lemma makeTaskId_parts (session1 session2 : Session) (n1 n2 : N) :
  Task.makeTaskId session1 n1 = Task.makeTaskId session2 n2 →
  session1 = session2 ∧ n1 = n2.
Proof.
  rewrite !makeTaskId_split. intros E.
  apply split_at_last in E as [Es En].
  - split.
    + destruct session1, session2. cbn in Es. by subst.
    + apply append_inv_tail in En. by apply (inj pretty).
  - rewrite lacksChar_append, pretty_N_lacks_brace. reflexivity.
  - rewrite lacksChar_append, pretty_N_lacks_brace. reflexivity.
Qed.

(** X1.  A task id determines the session id and the counter value it was
    made from: two ids are equal only if both agree, whatever braces and
    digits the session ids contain.  So tasks made from different counter
    values have different ids, also across sessions. *)
Theorem makeTaskId_inj (session1 session2 : Session) (n1 n2 : N) :
  Task.makeTaskId session1 n1 = Task.makeTaskId session2 n2 →
  session1 = session2 ∧ n1 = n2.
Proof. apply makeTaskId_parts. Qed.

Lemma makeTaskId_inj_witness :
  session "a{1}" = session "a{1}" ∧ 2%N = 2%N.
Proof. exact (makeTaskId_inj (session "a{1}") (session "a{1}") 2 2 eq_refl). Defined.

(** ** File names *)

Section FileNames.

Lemma lastIndexOf_from_absent c (s : string) (i found : Z) :
  lacksChar c s = true → lastIndexOf_from c s i found = found.
Proof.
  revert i found. induction s as [|a s IH]; intros i found H; [reflexivity|].
  cbn in *. apply andb_prop in H as [Ha Hs].
  apply negb_true_iff in Ha. rewrite Ha. by apply IH.
Qed.

Lemma lastIndexOf_from_last c (dir base : string) (i found : Z) :
  lacksChar c base = true →
  lastIndexOf_from c (dir +:+ String c base) i found =
    i + Z.of_nat (String.length dir).
Proof.
  intros Hb. revert i found.
  induction dir as [|a dir IH]; intros i found.
  - rewrite append_nil. cbn. rewrite Ascii.eqb_refl.
    rewrite lastIndexOf_from_absent by done. lia.
  - rewrite append_cons. cbn [lastIndexOf_from String.length].
    rewrite IH. lia.
Qed.

Lemma substring_all (s : string) : String.substring 0 (String.length s) s = s.
Proof. induction s as [|a s IH]; [reflexivity|]. cbn. by rewrite IH. Qed.

Lemma substring_skip (a b : string) :
  String.substring (String.length a) (String.length b) (a +:+ b) = b.
Proof.
  induction a as [|x a IH]; [apply substring_all|].
  rewrite append_cons. exact IH.
Qed.

Lemma substring_from_skip (a b : string) :
  substring_from (Z.of_nat (String.length a)) (a +:+ b) = b.
Proof.
  unfold substring_from. rewrite Nat2Z.id, length_append.
  replace (String.length a + String.length b - String.length a)%nat
    with (String.length b) by lia.
  apply substring_skip.
Qed.

Lemma baseName_of_path (dir base : string) :
  lacksChar "/" base = true → baseName (dir +:+ String "/" base) = base.
Proof.
  intros Hb. unfold baseName, lastIndexOf.
  rewrite lastIndexOf_from_last by done.
  replace (dir +:+ String "/" base) with ((dir +:+ "/") +:+ base)
    by (by rewrite append_assoc).
  replace (0 + Z.of_nat (String.length dir) + 1)
    with (Z.of_nat (String.length (dir +:+ "/")))
    by (rewrite length_append; cbn; lia).
  apply substring_from_skip.
Qed.

Lemma baseName_plain (s : string) : lacksChar "/" s = true → baseName s = s.
Proof.
  intros Hs. unfold baseName, lastIndexOf.
  rewrite lastIndexOf_from_absent by done.
  exact (substring_from_skip "" s).
Qed.




(** A dollar sign in the application path is read as a pattern of the
    replacement text. *)
Lemma expandAppRelative_dollar :
  expandAppRelative "/data/$&app" "~/img/a.jpg" = "/data/~/app/img/a.jpg" ∧
  expandAppRelative "/data/$$app" "~/img/a.jpg" = "/data/$app/img/a.jpg" ∧
  expandAppRelative "/data/$1app" "~/img/a.jpg" = "/data/$1app/img/a.jpg".
Proof. vm_compute. repeat split. Qed.

End FileNames.

(** ** Request options *)

Section RequestOptions.

Lemma addHeaders_spec hs request :
  addHeaders hs request =
    {| protocol := protocol request; serverUrl := serverUrl request;
       fileToUpload := fileToUpload request; parameters := parameters request;
       filesToUpload := filesToUpload request;
       autoDeleteFilesAfterSuccessfulUpload :=
         autoDeleteFilesAfterSuccessfulUpload request;
       maxRetries := maxRetries request;
       requestHeaders := requestHeaders request ++ presentHeaders hs;
       httpMethod := httpMethod request |}.
Proof.
  revert request. induction hs as [|[k [v|]] hs IH]; intros request.
  - destruct request. cbn. by rewrite app_nil_r.
  - cbn [addHeaders]. rewrite IH. cbn. by rewrite <- app_assoc.
  - cbn [addHeaders]. rewrite IH. reflexivity.
Qed.

Lemma setRequestOptions_spec request options :
  setRequestOptions request options =
    {| protocol := protocol request; serverUrl := serverUrl request;
       fileToUpload := fileToUpload request; parameters := parameters request;
       filesToUpload := filesToUpload request;
       autoDeleteFilesAfterSuccessfulUpload :=
         autoDeleteFilesAfterSuccessfulUpload request
         || default false (androidAutoDeleteAfterUpload options);
       maxRetries :=
         match effectiveRetries (androidMaxRetries options) with
         | Some n => Some n
         | None => maxRetries request
         end;
       requestHeaders :=
         requestHeaders request ++ presentHeaders (default [] (headers options));
       httpMethod := Some (truthy_or (method options) "GET") |}.
Proof.
  unfold setRequestOptions, effectiveRetries.
  destruct request as [p u f ps fs ad mr hd me].
  destruct (androidAutoDeleteAfterUpload options) as [[|]|],
    (androidMaxRetries options) as [n|], (headers options) as [hs|];
    try destruct (number_falsy n);
    rewrite ?addHeaders_spec; cbn;
    rewrite ?app_nil_r, ?orb_true_r, ?orb_false_r; reflexivity.
Qed.

End RequestOptions.

(** X2.  The binary request is built from the options alone: it targets
    [options.url] with the one file, carries exactly the headers whose
    value is neither [null] nor [undefined], in their order, and nothing
    else; the task id is not part of it. *)
Theorem binary_request_headers_and_body (taskId : string) (options : Request)
    (file : string) :
  let request := getBinaryRequest taskId options file in
  protocol request = BinaryUploadRequest ∧
  serverUrl request = url options ∧
  fileToUpload request = Some file ∧
  parameters request = [] ∧
  filesToUpload request = [] ∧
  requestHeaders request = presentHeaders (default [] (headers options)) ∧
  request = getBinaryRequest "" options file.
Proof.
  unfold getBinaryRequest. rewrite !setRequestOptions_spec. cbn.
  repeat split.
Qed.

(** X3.  Retries and auto-delete reach the request only when they are
    truthy: [androidMaxRetries] is set on the request when it is a number
    other than zero and [NaN], and otherwise the request keeps the default
    of the upload service; files are deleted after the upload exactly when
    [androidAutoDeleteAfterUpload] is the boolean [true]. *)
Theorem retries_and_autodelete_need_truthy_values (taskId : string)
    (options : Request) (file : string) :
  let request := getBinaryRequest taskId options file in
  maxRetries request = effectiveRetries (androidMaxRetries options) ∧
  (androidMaxRetries options = Some (Finite 0) → maxRetries request = None) ∧
  autoDeleteFilesAfterSuccessfulUpload request =
    bool_decide (androidAutoDeleteAfterUpload options = Some true).
Proof.
  unfold getBinaryRequest. rewrite !setRequestOptions_spec. cbn.
  split; [by destruct (effectiveRetries _)|].
  split; [by intros ->|].
  by destruct (androidAutoDeleteAfterUpload options) as [[|]|].
Qed.

(** X4.  A method that is given and not empty is the one submitted, by
    both request builders. *)
Theorem given_method_is_submitted (appPath taskId : string) (options : Request)
    (file : string) (params : list Part) (m : string) :
  method options = Some m → m ≠ "" →
  httpMethod (getBinaryRequest taskId options file) = Some m ∧
  ∀ request,
    getMultipartRequest appPath taskId options params = Return request →
    httpMethod request = Some m.
Proof.
  intros Hm Hne.
  assert (truthy_or (method options) "GET" = m) as E.
  { rewrite Hm. cbn. by destruct (String.eqb_spec m ""). }
  split.
  - by rewrite getBinaryRequest_method, E.
  - intros request G.
    by rewrite (getMultipartRequest_method _ _ _ _ _ G), E.
Qed.

Lemma given_method_is_submitted_witness :
  let options :=
    {| url := "https://example.org/upload"; method := Some "POST";
       headers := Some [("Accept", Some "*/*"); ("X-Trace", None)];
       description := None; androidAutoDeleteAfterUpload := Some true;
       androidMaxRetries := Some (Finite 0) |} in
  httpMethod (getBinaryRequest "s1{1}" options "/data/photo.jpg") = Some "POST" ∧
  ∀ request,
    getMultipartRequest "/data/app" "s1{1}" options [Sample.field; Sample.file]
      = Return request →
    httpMethod request = Some "POST".
Proof.
  intros options.
  apply (given_method_is_submitted "/data/app" "s1{1}" options
           "/data/photo.jpg" [Sample.field; Sample.file] "POST");
    [reflexivity|discriminate].
Defined.





(** X7.  The default remote name of a file is what follows the last slash
    of its path, and the whole path when there is no slash. *)
Theorem default_remote_name (dir base : string) :
  lacksChar "/" base = true →
  baseName (dir +:+ String "/" base) = base ∧ baseName base = base.
Proof.
  intros Hb. split; [by apply baseName_of_path|by apply baseName_plain].
Qed.

Lemma default_remote_name_witness :
  baseName ("/sdcard/DCIM" +:+ String "/" "a.jpg") = "a.jpg" ∧
  baseName "a.jpg" = "a.jpg".
Proof. exact (default_remote_name "/sdcard/DCIM" "a.jpg" eq_refl). Defined.

(** ** The handlers, one by one *)

(** X8.  A progress callback for a task of the cache stores the two
    reported counts as they come (no normalisation: a total of zero or
    [NaN] is stored too), sets the status to "uploading" and notifies
    exactly one semantic event, [progress], with those counts. *)
Theorem progress_callback_reports_counts_as_given (uploadInfo : UploadInfo)
    (s : State) (task : loc) (t : Task) :
  cache s !! getUploadId uploadInfo = Some task →
  heap s !! task = Some t →
  let handler := deliver (onProgress uploadInfo) in
  (handler s).1 = Return () ∧
  heap (handler s).2 !! task =
    Some (withStatus "uploading"
            (withUpload (getUploadedBytes uploadInfo)
               (withTotalUpload (getTotalBytes uploadInfo) t))) ∧
  semanticEvents (emitted handler s) =
    [ {| eventName := "progress"; object := task;
         detail := ProgressEventData (getUploadedBytes uploadInfo)
                     (getTotalBytes uploadInfo) |} ].
Proof.
  intros known live handler.
  assert (handler s = onProgressReceiverProgress uploadInfo s) as E by done.
  rewrite (progress_run _ _ _ known) in E.
  rewrite E. split; [reflexivity|]. split.
  - cbn. by rewrite !list_lookup_alter_eq, live.
  - erewrite emitted_app; [|rewrite E; reflexivity]. reflexivity.
Qed.

Lemma progress_callback_reports_counts_as_given_witness :
  let handler := deliver (onProgress (Sample.info (Finite 50) (Finite 0))) in
  Task.totalUpload 0 (handler Sample.uploading).2 = Some (Finite 0) ∧
  Task.upload 0 (handler Sample.uploading).2 = Some (Finite 50) ∧
  Task.status 0 (handler Sample.uploading).2 = Some "uploading".
Proof.
  destruct (progress_callback_reports_counts_as_given
              (Sample.info (Finite 50) (Finite 0)) Sample.uploading 0%nat
              (pendingTask "s1{1}" (session "s1") Sample.options)
              eq_refl eq_refl) as (_ & H & _).
  cbn zeta. unfold Task.totalUpload, Task.upload, Task.status.
  rewrite H. repeat split.
Defined.

(** X9.  An error callback for a task of the cache, whatever its cause:
    the handler returns, the status is "error", and exactly one semantic
    event is notified.  It is [cancelled] for a user cancellation, [error]
    with the wrapped cause and the server response for an upload error,
    and a bare [error] for any other throwable. *)
Theorem error_callback_by_cause (uploadInfo : UploadInfo) (error : Throwable)
    (s : State) (task : loc) (t : Task) :
  cache s !! getUploadId uploadInfo = Some task →
  heap s !! task = Some t →
  let handler := deliver (onError uploadInfo error) in
  (handler s).1 = Return () ∧
  heap (handler s).2 !! task = Some (withStatus "error" t) ∧
  semanticEvents (emitted handler s) =
    [ match error with
      | UserCancelledUploadException =>
          {| eventName := "cancelled"; object := task; detail := NoDetail |}
      | UploadError serverResponse =>
          {| eventName := "error"; object := task;
             detail := ErrorEventData (ExceptionCausedBy error) (-1)
                         serverResponse |}
      | OtherThrowable _ =>
          {| eventName := "error"; object := task; detail := NoDetail |}
      end ].
Proof.
  intros known live handler.
  assert (handler s = onProgressReceiverError uploadInfo error s) as E by done.
  destruct error as [|serverResponse|message].
  - rewrite (error_userCancelled_run _ _ _ known) in E.
    rewrite E. split; [reflexivity|]. split.
    + cbn. by rewrite list_lookup_alter_eq, live.
    + erewrite emitted_app; [|rewrite E; reflexivity]. reflexivity.
  - rewrite (error_uploadError_run _ _ _ serverResponse known) in E.
    rewrite E. split; [reflexivity|]. split.
    + cbn. by rewrite list_lookup_alter_eq, live.
    + erewrite emitted_app; [|rewrite E; reflexivity]. reflexivity.
  - rewrite (error_other_run _ _ _ message known) in E.
    rewrite E. split; [reflexivity|]. split.
    + cbn. by rewrite list_lookup_alter_eq, live.
    + erewrite emitted_app; [|rewrite E; reflexivity]. reflexivity.
Qed.

Lemma error_callback_by_cause_witness :
  let handler :=
    deliver (onError (Sample.info (Finite 50) (Finite 200))
               (OtherThrowable "java.net.SocketException")) in
  Task.status 0 (handler Sample.uploading).2 = Some "error" ∧
  semanticEvents (emitted handler Sample.uploading) =
    [ {| eventName := "error"; object := 0%nat; detail := NoDetail |} ].
Proof.
  destruct (error_callback_by_cause
              (Sample.info (Finite 50) (Finite 200))
              (OtherThrowable "java.net.SocketException") Sample.uploading
              0%nat (pendingTask "s1{1}" (session "s1") Sample.options)
              eq_refl eq_refl) as (_ & H & He).
  cbn zeta. unfold Task.status. rewrite H. split; [reflexivity|exact He].
Defined.

(** X10.  The cancellation handler, for a task of the cache: the status
    becomes "cancelled" and the one semantic event is [cancelled].  The
    delegate does not route any callback to it. *)
Theorem cancelled_handler_sets_cancelled (uploadInfo : UploadInfo)
    (s : State) (task : loc) (t : Task) :
  cache s !! getUploadId uploadInfo = Some task →
  heap s !! task = Some t →
  let handler := onProgressReceiverCancelled uploadInfo in
  (handler s).1 = Return () ∧
  heap (handler s).2 !! task = Some (withStatus "cancelled" t) ∧
  semanticEvents (emitted handler s) =
    [ {| eventName := "cancelled"; object := task; detail := NoDetail |} ] ∧
  ∀ c, uploadInfoOf c = Some uploadInfo →
    Task.status task (deliver c s).2 ≠ Some "cancelled".
Proof.
  intros known live handler. unfold handler.
  rewrite (cancelled_run _ _ _ known). split; [reflexivity|]. split; [|split].
  - cbn. by rewrite list_lookup_alter_eq, live.
  - erewrite emitted_app; [|rewrite (cancelled_run _ _ _ known); reflexivity].
    reflexivity.
  - intros c Hc. unfold Task.status.
    destruct c as [ui|ui error|ui response|ui|]; cbn in Hc; try discriminate;
      injection Hc as ->; cbn [deliver].
    + rewrite (progress_run _ _ _ known). cbn.
      by rewrite !list_lookup_alter_eq, live.
    + destruct error as [|serverResponse|message].
      * rewrite (error_userCancelled_run _ _ _ known). cbn.
        by rewrite !list_lookup_alter_eq, live.
      * rewrite (error_uploadError_run _ _ _ serverResponse known). cbn.
        by rewrite !list_lookup_alter_eq, live.
      * rewrite (error_other_run _ _ _ message known). cbn.
        by rewrite !list_lookup_alter_eq, live.
    + destruct response as [r|].
      * rewrite (completed_run _ _ _ r known). cbn. unfold completedHeap.
        by rewrite !list_lookup_alter_eq, live.
      * rewrite (completed_null_run _ _ _ known). cbn. unfold completedHeap.
        by rewrite !list_lookup_alter_eq, live.
    + rewrite (progress_run _ _ _ known). cbn.
      by rewrite !list_lookup_alter_eq, live.
Qed.

Lemma cancelled_handler_sets_cancelled_witness :
  let handler :=
    onProgressReceiverCancelled (Sample.info (Finite 50) (Finite 200)) in
  Task.status 0 (handler Sample.uploading).2 = Some "cancelled".
Proof.
  destruct (cancelled_handler_sets_cancelled
              (Sample.info (Finite 50) (Finite 200)) Sample.uploading 0%nat
              (pendingTask "s1{1}" (session "s1") Sample.options)
              eq_refl eq_refl) as (_ & H & _).
  cbn zeta. unfold Task.status. by rewrite H.
Defined.

(** X11.  A success callback without a response object, for a task of the
    cache: the handler throws a [TypeError] when it reads the body, after
    it has set the status to "complete" and notified [progress]; neither
    [responded] nor [complete] is notified. *)
Theorem success_without_response_throws (uploadInfo : UploadInfo) (s : State)
    (task : loc) (t : Task) :
  cache s !! getUploadId uploadInfo = Some task →
  heap s !! task = Some t →
  let handler := deliver (onSuccess uploadInfo None) in
  let total := normalizeTotal (getTotalBytes uploadInfo) in
  (handler s).1 = Throw TypeError ∧
  Task.status task (handler s).2 = Some "complete" ∧
  semanticEvents (emitted handler s) =
    [ {| eventName := "progress"; object := task;
         detail := ProgressEventData total total |} ].
Proof.
  intros known live handler total.
  assert (handler s = onProgressReceiverCompleted uploadInfo None s) as E
    by done.
  rewrite (completed_null_run _ _ _ known) in E.
  rewrite E. split; [reflexivity|]. split.
  - unfold Task.status. cbn. unfold completedHeap.
    by rewrite !list_lookup_alter_eq, live.
  - erewrite emitted_app; [|rewrite E; reflexivity]. reflexivity.
Qed.

Lemma success_without_response_throws_witness :
  let handler :=
    deliver (onSuccess (Sample.info (Finite 200) (Finite 200)) None) in
  (handler Sample.uploading).1 = Throw TypeError ∧
  Task.status 0 (handler Sample.uploading).2 = Some "complete" ∧
  semanticEvents (emitted handler Sample.uploading) =
    [ {| eventName := "progress"; object := 0%nat;
         detail := ProgressEventData (Finite 200) (Finite 200) |} ].
Proof.
  exact (success_without_response_throws
           (Sample.info (Finite 200) (Finite 200)) Sample.uploading 0%nat
           (pendingTask "s1{1}" (session "s1") Sample.options)
           eq_refl eq_refl).
Defined.

(** X12.  The [onCompleted] callback runs the progress handler.  Delivered
    after a success for the same upload, it puts the status back from
    "complete" to "uploading", stores the counts of its upload info
    unnormalised, and notifies one more [progress] event. *)
Theorem completed_after_success_reopens (uploadInfo after : UploadInfo)
    (r : ServerResponse) (s : State) (task : loc) (t : Task) :
  cache s !! getUploadId uploadInfo = Some task →
  heap s !! task = Some t →
  getUploadId after = getUploadId uploadInfo →
  let s1 := (deliver (onSuccess uploadInfo (Some r)) s).2 in
  let s2 := (deliver (onCompleted after) s1).2 in
  Task.status task s1 = Some "complete" ∧
  Task.status task s2 = Some "uploading" ∧
  Task.totalUpload task s2 = Some (getTotalBytes after) ∧
  semanticEvents (emitted (deliver (onCompleted after)) s1) =
    [ {| eventName := "progress"; object := task;
         detail := ProgressEventData (getUploadedBytes after)
                     (getTotalBytes after) |} ].
Proof.
  intros known live same s1 s2.
  assert (s1 = with_effects
                 (effects s ++ completedProgress uploadInfo task ++
                  [ Notify {| eventName := "responded"; object := task;
                              detail := ResultEventData (getBodyString r)
                                          (default (-1) (getCode r)) |};
                    Notify {| eventName := "complete"; object := task;
                              detail := CompleteEventData
                                          (default (-1) (getCode r)) (Some r) |} ])
                 (with_heap (completedHeap uploadInfo task s) s)) as E1.
  { unfold s1. cbn [deliver]. by rewrite (completed_run _ _ _ r known). }
  assert (cache s1 !! getUploadId after = Some task) as known1.
  { rewrite E1, same. exact known. }
  assert (∃ t1, heap s1 !! task = Some t1 ∧ _status t1 = Some "complete")
    as (t1 & live1 & Hst).
  { rewrite E1. cbn. unfold completedHeap.
    rewrite !list_lookup_alter_eq, live. eauto. }
  split; [unfold Task.status; by rewrite live1|].
  assert (deliver (onCompleted after) s1 =
            onProgressReceiverProgress after s1) as E2 by done.
  rewrite (progress_run _ _ _ known1) in E2.
  unfold s2, Task.status, Task.totalUpload. rewrite E2.
  cbn [snd heap with_heap with_effects].
  rewrite !list_lookup_alter_eq, live1. repeat split.
  erewrite emitted_app; [|rewrite E2; reflexivity]. reflexivity.
Qed.

Lemma completed_after_success_reopens_witness :
  let s1 :=
    (deliver (onSuccess (Sample.info (Finite 200) (Finite 200))
                (Some Sample.ok)) Sample.uploading).2 in
  let s2 :=
    (deliver (onCompleted (Sample.info (Finite 200) (Finite 200))) s1).2 in
  Task.status 0 s1 = Some "complete" ∧ Task.status 0 s2 = Some "uploading".
Proof.
  destruct (completed_after_success_reopens
              (Sample.info (Finite 200) (Finite 200))
              (Sample.info (Finite 200) (Finite 200)) Sample.ok
              Sample.uploading 0%nat
              (pendingTask "s1{1}" (session "s1") Sample.options)
              eq_refl eq_refl eq_refl) as (H1 & H2 & _).
  exact (conj H1 H2).
Defined.

(** ** The shape of a call *)

Section Shapes.

Lemma state_eta s :
  with_effects (effects s ++ []) (with_heap (heap s) s) = s.
Proof. destruct s. cbn. by rewrite app_nil_r. Qed.

Lemma cancel_run task s :
  Task.cancel task s =
    match heap s !! task with
    | Some t => (Return (), with_effects (effects s ++ [StopUpload (_id t)]) s)
    | None => (Throw TypeError, s)
    end.
Proof.
  js_state s. unfold Task.cancel. js_run.
  by destruct (h !! task).
Qed.

Lemma setTotalUpload_run v task s :
  Task.setTotalUpload v task s =
    (Return (),
     with_effects (effects s ++ [propertyChange task "totalUpload" (VNumber v)])
       (with_heap (alter (withTotalUpload v) task (heap s)) s)).
Proof. js_state s. unfold Task.setTotalUpload. js_run. reflexivity. Qed.

Lemma setUpload_run v task s :
  Task.setUpload v task s =
    (Return (),
     with_effects (effects s ++ [propertyChange task "upload" (VNumber v)])
       (with_heap (alter (withUpload v) task (heap s)) s)).
Proof. js_state s. unfold Task.setUpload. js_run. reflexivity. Qed.

Lemma setStatus_run v task s :
  Task.setStatus v task s =
    (Return (),
     with_effects (effects s ++ [propertyChange task "status" (VString v)])
       (with_heap (alter (withStatus v) task (heap s)) s)).
Proof. js_state s. unfold Task.setStatus. js_run. reflexivity. Qed.

Lemma setDescription_run v task s :
  Task.setDescription v task s =
    (Return (),
     with_effects
       (effects s ++ [propertyChange task "description" (of_optional_string v)])
       (with_heap (alter (withDescription v) task (heap s)) s)).
Proof. js_state s. unfold Task.setDescription. js_run. reflexivity. Qed.

(** The notifications of a handler are all about the task it found. *)
Ltac only_notifies :=
  repeat (constructor; [eexists; split; reflexivity|]); constructor.

(** Close a case of [deliver_shape] once the final state is explicit. *)
Ltac shape_found K :=
  do 2 eexists;
  split; [reflexivity|]; split; [exact K|]; split; [reflexivity|];
  split; [by intros ?|]; split; [by intros ?|only_notifies].

Lemma deliver_shape c s :
  (deliver c s).2 = s ∨
  ∃ uploadInfo task f evs,
    uploadInfoOf c = Some uploadInfo ∧
    cache s !! getUploadId uploadInfo = Some task ∧
    (deliver c s).2 =
      with_effects (effects s ++ evs) (with_heap (alter f task (heap s)) s) ∧
    keepsIdentity f ∧
    (∀ t, knownStatus (_status (f t)) = true) ∧
    onlyNotifies task evs.
Proof.
  destruct c as [ui|ui error|ui response|ui|]; cbn [deliver];
    [| | | |by left].
  all: destruct (cache s !! getUploadId ui) as [task|] eqn:K.
  all: try (left;
            first [ by rewrite progress_unroutable
                  | by rewrite error_unroutable
                  | by rewrite completed_unroutable ]).
  all: right; exists ui, task.
  - rewrite (progress_run _ _ _ K), !list_alter_alter_eq.
    shape_found K.
  - destruct error as [|serverResponse|message].
    + rewrite (error_userCancelled_run _ _ _ K).
      shape_found K.
    + rewrite (error_uploadError_run _ _ _ serverResponse K).
      shape_found K.
    + rewrite (error_other_run _ _ _ message K).
      shape_found K.
  - destruct response as [r|].
    + rewrite (completed_run _ _ _ r K). unfold completedHeap.
      rewrite !list_alter_alter_eq.
      shape_found K.
    + rewrite (completed_null_run _ _ _ K). unfold completedHeap.
      rewrite !list_alter_alter_eq.
      shape_found K.
  - rewrite (progress_run _ _ _ K), !list_alter_alter_eq.
    shape_found K.
Qed.

Lemma onlyNotifies_requests task l : onlyNotifies task l → requestsStarted l = [].
Proof.
  induction 1 as [|e l (ev & -> & _) _ IH]; [reflexivity|exact IH].
Qed.

Lemma alter_id (task : loc) (h : list Task) : alter id task h = h.
Proof. by apply list_alter_id. Qed.

(** A call that leaves the tasks as they are. *)
Lemma fieldWrite_none a l s s' :
  cache s' = cache s → taskCount s' = taskCount s →
  receiver s' = receiver s → heap s' = heap s →
  effects s' = effects s ++ l → requestsStarted l = [] →
  fieldWrite a id 0%nat l s s'.
Proof.
  intros Hc Hn Hr Hh He Hl.
  split; [done|]. split; [done|]. split; [done|].
  split; [by rewrite alter_id|]. split; [done|]. split; [done|].
  split; [done|]. split; [done|]. done.
Qed.

(** Every call is a successful factory call, a factory call that throws,
    or a write to the fields of one task. *)
Lemma perform_cases a s :
  (receiver s = true ∧
   ∃ session options request,
     perform a s =
       created (Task.makeTaskId session (Task.increment (taskCount s)))
         session options request s) ∨
  (receiver s = true ∧ perform a s = rejected s) ∨
  (receiver s = false ∧ perform a s = stopped s) ∨
  ∃ f task l, fieldWrite a f task l s (perform a s).
Proof.
  destruct a as [session fileUri options|session params options|task
                |task v|task v|task v|task v|c]; cbn [perform].
  - unfold SessionMethods.uploadFile. rewrite create_run.
    destruct (receiver s); [left|right; right; left]; eauto 10.
  - unfold SessionMethods.multipartUpload. rewrite createMultiPart_run.
    destruct (receiver s); [|right; right; left; eauto].
    destruct (getMultipartRequest _ _ _ _); [left|right; left]; eauto 10.
  - do 3 right. rewrite cancel_run.
    destruct (heap s !! task) as [t|]; cbn.
    + exists id, 0%nat, [StopUpload (_id t)]. by apply fieldWrite_none.
    + exists id, 0%nat, []. apply fieldWrite_none; try done.
      by rewrite app_nil_r.
  - do 3 right. rewrite setTotalUpload_run. do 3 eexists.
    repeat split; try reflexivity; done.
  - do 3 right. rewrite setUpload_run. do 3 eexists.
    repeat split; try reflexivity; done.
  - do 3 right. rewrite setStatus_run. do 3 eexists.
    repeat split; try reflexivity.
    intros Hv. by destruct (Hv v).
  - do 3 right. rewrite setDescription_run. do 3 eexists.
    repeat split; try reflexivity; try done.
    intros Hv. by destruct (Hv v).
  - do 3 right.
    destruct (deliver_shape c s)
      as [E|(ui & task & f & evs & _ & _ & E & Hf & Hst & Hev)]; rewrite E.
    + exists id, 0%nat, []. apply fieldWrite_none; try done.
      by rewrite app_nil_r.
    + exists f, task, evs.
      repeat split; try reflexivity; try apply Hf.
      * by eapply onlyNotifies_requests.
      * intros _ t. apply Hf.
      * intros _ t _. apply Hst.
Qed.

End Shapes.

(** ** What calls keep *)

Section Invariants.

Lemma increment_below n : (n < 2 ^ 53)%N → Task.increment n = (n + 1)%N.
Proof.
  intros H. unfold Task.increment.
  by destruct (N.ltb_spec n (2 ^ 53)); [|lia].
Qed.

Lemma increment_ge n : (n ≤ Task.increment n)%N.
Proof. unfold Task.increment. destruct (n <? 2 ^ 53)%N; lia. Qed.

Lemma minted_fresh s session n :
  minted s → (taskCount s < n)%N → cache s !! Task.makeTaskId session n = None.
Proof.
  intros Hm Hn. destruct (cache s !! _) as [task|] eqn:E; [|done].
  destruct (Hm _ _ E) as (session' & n' & Hid & Hle).
  apply makeTaskId_parts in Hid as [_ ->]. lia.
Qed.

Lemma minted_next_free s session :
  minted s → (taskCount s < 2 ^ 53)%N →
  cache s !! Task.makeTaskId session (Task.increment (taskCount s)) = None.
Proof.
  intros Hm Hn. apply minted_fresh; [done|].
  rewrite increment_below by done. lia.
Qed.

Lemma minted_counter s s' :
  cache s' = cache s → (taskCount s ≤ taskCount s')%N → minted s → minted s'.
Proof.
  intros Hc Hn Hm id task H. rewrite Hc in H.
  destruct (Hm _ _ H) as (session & n & -> & Hle).
  exists session, n. split; [done|lia].
Qed.

Lemma minted_created session options request s :
  minted s →
  minted (created (Task.makeTaskId session (Task.increment (taskCount s)))
            session options request s).
Proof.
  intros Hm id task H. cbn in H.
  destruct (decide (Task.makeTaskId session (Task.increment (taskCount s)) = id))
    as [<-|Hne].
  - exists session, (Task.increment (taskCount s)). done.
  - rewrite lookup_insert_ne in H by done.
    destruct (Hm _ _ H) as (session' & n & -> & Hle).
    exists session', n. cbn. split; [done|].
    pose proof (increment_ge (taskCount s)). lia.
Qed.

Lemma matched_created session options request s :
  matched s → minted s → (taskCount s < 2 ^ 53)%N →
  matched (created (Task.makeTaskId session (Task.increment (taskCount s)))
             session options request s).
Proof.
  intros Hs Hm Hn.
  pose proof (minted_next_free s session Hm Hn) as Fresh.
  set (taskId := Task.makeTaskId session (Task.increment (taskCount s))) in *.
  intros id task. cbn. split.
  - intros H. destruct (decide (taskId = id)) as [<-|Hne].
    + rewrite lookup_insert_eq in H. injection H as <-.
      rewrite lookup_snoc. eauto.
    + rewrite lookup_insert_ne in H by done.
      apply Hs in H as (t & Ht & Hid).
      exists t. split; [by apply lookup_app_l_Some|done].
  - intros (t & Ht & <-).
    apply lookup_app_Some in Ht as [Ht|[Hge Ht]].
    + assert (cache s !! _id t = Some task) as Hc by (apply Hs; eauto).
      rewrite lookup_insert_ne; [done|].
      intros E. rewrite E, Hc in Fresh. discriminate.
    + destruct (task - length (heap s))%nat as [|k] eqn:Hk; [|done].
      injection Ht as <-. cbn.
      replace task with (length (heap s)) by lia.
      apply lookup_insert_eq.
Qed.

Lemma matched_same s s' :
  cache s' = cache s → heap s' = heap s → matched s → matched s'.
Proof. intros Hc Hh Hs id task. rewrite Hc, Hh. apply Hs. Qed.

Lemma matched_fieldWrite a f task l s s' :
  fieldWrite a f task l s s' → matched s → matched s'.
Proof.
  intros (Hc & _ & _ & Hh & _ & _ & Hf & _) Hs id task'.
  rewrite Hc, Hh, (Hs id task').
  destruct (decide (task = task')) as [->|Hne].
  - rewrite list_lookup_alter_eq. split.
    + intros (t & -> & Hid). exists (f t). split; [done|].
      by destruct (Hf t) as [-> _].
    + intros (t' & Ht' & Hid).
      destruct (heap s !! task') as [t|]; [|done].
      injection Ht' as <-. exists t. split; [done|].
      by destruct (Hf t) as [<- _].
  - by rewrite list_lookup_alter_ne.
Qed.

Lemma matched_initial appPath : matched (initial appPath).
Proof.
  intros id task. cbn. rewrite lookup_empty, lookup_nil. split; [done|].
  by intros (t & ? & _).
Qed.

Lemma dormant_step s s' : step s s' → dormant s → dormant s'.
Proof.
  intros [a s0 Hcall] (Hr & Hn & Hc & Hh & He).
  destruct a as [session fileUri options|session params options|task
                |task v|task v|task v|task v|c]; cbn [perform callable] in *.
  - unfold SessionMethods.uploadFile. rewrite create_run, Hr. by cbn.
  - unfold SessionMethods.multipartUpload.
    rewrite createMultiPart_run, Hr. by cbn.
  - rewrite Hh, lookup_nil in Hcall. by destruct Hcall.
  - rewrite Hh, lookup_nil in Hcall. by destruct Hcall.
  - rewrite Hh, lookup_nil in Hcall. by destruct Hcall.
  - rewrite Hh, lookup_nil in Hcall. by destruct Hcall.
  - rewrite Hh, lookup_nil in Hcall. by destruct Hcall.
  - destruct (deliver_shape c s0)
      as [->|(ui & task & f & evs & _ & K & _)]; [done|].
    by rewrite Hc, lookup_empty in K.
Qed.

Lemma reachable_dormant appPath s : reachable appPath s → dormant s.
Proof.
  induction 1 as [|s s' _ IH Hstep]; [done|].
  by eapply dormant_step.
Qed.

(** The sample state with one upload is matched and minted. *)
Lemma uploading_matched : matched Sample.uploading.
Proof.
  apply (matched_created (session "s1") Sample.options
           (getBinaryRequest "s1{1}" Sample.options "/data/photo.jpg")
           Sample.ready).
  - apply (matched_initial "/data/app").
  - intros id task H. cbn in H. by rewrite lookup_empty in H.
  - reflexivity.
Qed.

Lemma uploading_minted : minted Sample.uploading.
Proof.
  apply (minted_created (session "s1") Sample.options
           (getBinaryRequest "s1{1}" Sample.options "/data/photo.jpg")
           Sample.ready).
  intros id task H. cbn in H. by rewrite lookup_empty in H.
Qed.

End Invariants.

(** X13.  While the task counter is below 2^53, every call and callback
    keeps the cache and the tasks matched one to one: from a state in
    which an id resolves to a task exactly when that task exists and
    carries this id, and in which the ids were made from counter values
    already used, the state after the call is of this kind again. *)
Theorem registry_stays_matched (a : Call) (s : State) :
  matched s → minted s → (taskCount s < 2 ^ 53)%N →
  matched (perform a s) ∧ minted (perform a s).
Proof.
  intros Hs Hm Hn.
  destruct (perform_cases a s)
    as [(_ & session & options & request & ->)|[(_ & ->)|[(_ & ->)|
        (f & task & l & F)]]].
  - split; [by apply matched_created|by apply minted_created].
  - split; [by apply (matched_same s)|].
    apply (minted_counter s); [reflexivity| |done]. apply increment_ge.
  - split; [by apply (matched_same s)|].
    by apply (minted_counter s).
  - split; [by eapply matched_fieldWrite|].
    destruct F as (Hc & Hcount & _).
    apply (minted_counter s); [exact Hc|lia|done].
Qed.

Lemma registry_stays_matched_witness :
  let s' :=
    perform (CallUploadFile (session "s1") "/data/b.jpg" Sample.options)
      Sample.uploading in
  matched s' ∧ minted s'.
Proof.
  exact (registry_stays_matched
           (CallUploadFile (session "s1") "/data/b.jpg" Sample.options)
           Sample.uploading uploading_matched uploading_minted eq_refl).
Defined.

(** X14.  While the task counter is below 2^53 and the ids of the cache
    were made from counter values already used, the id the next factory
    call will use is not taken, and no call or callback removes or
    redirects an entry of the cache: a new task never replaces a
    registered one. *)
Theorem registry_only_grows (a : Call) (s : State) :
  minted s → (taskCount s < 2 ^ 53)%N →
  (∀ session,
     cache s !! Task.makeTaskId session (Task.increment (taskCount s)) = None) ∧
  ∀ id task, cache s !! id = Some task → cache (perform a s) !! id = Some task.
Proof.
  intros Hm Hn.
  split; [intros session; by apply minted_next_free|].
  intros id task H.
  destruct (perform_cases a s)
    as [(_ & session & options & request & ->)|[(_ & ->)|[(_ & ->)|
        (f & task' & l & Hc & _)]]]; cbn; [|done|done|by rewrite Hc].
  rewrite lookup_insert_ne; [done|].
  intros <-. by rewrite minted_next_free in H.
Qed.

Lemma registry_only_grows_witness :
  cache Sample.uploading !! Task.makeTaskId (session "s1") 2 = None ∧
  cache (perform (CallUploadFile (session "s1") "/data/b.jpg" Sample.options)
           Sample.uploading) !! "s1{1}" = Some 0%nat.
Proof.
  destruct (registry_only_grows
              (CallUploadFile (session "s1") "/data/b.jpg" Sample.options)
              Sample.uploading uploading_minted eq_refl) as [Fresh Keep].
  split; [exact (Fresh (session "s1"))|].
  apply Keep. reflexivity.
Defined.

(** X15.  The factories and the installed handlers write the statuses
    "pending", "uploading", "error" and "complete" only, and [cancel] and
    the other setters write none: a status outside these four, such as
    "cancelled", is in a task only after the application has called
    [setStatus] with it, which stores any string. *)
Theorem other_statuses_need_setStatus (a : Call) (s : State) (task : loc)
    (t : Task) (v : string) :
  statusKnown s → heap s !! task = Some t →
  ((∀ task' v', a ≠ CallSetStatus task' v') → statusKnown (perform a s)) ∧
  Task.status task (perform (CallSetStatus task v) s) = Some v.
Proof.
  intros Hs Ht. split.
  - intros Ha.
    destruct (perform_cases a s)
      as [(_ & session & options & request & ->)|[(_ & ->)|[(_ & ->)|
          (f & task0 & l & _ & _ & _ & Hh & _ & _ & _ & _ & Hst)]]];
      [|done|done|].
    + intros task' t' H. cbn in H.
      apply lookup_app_Some in H as [H|[_ H]]; [by eapply Hs|].
      destruct (task' - length (heap s))%nat; [|done].
      by injection H as <-.
    + intros task' t' H. rewrite Hh in H.
      destruct (decide (task0 = task')) as [->|Hne].
      * rewrite list_lookup_alter_eq in H.
        destruct (heap s !! task') as [t0|] eqn:E; [|done].
        injection H as <-. apply Hst; [apply Ha|by eapply Hs].
      * rewrite list_lookup_alter_ne in H by done. by eapply Hs.
  - cbn [perform]. rewrite setStatus_run. unfold Task.status. cbn.
    by rewrite list_lookup_alter_eq, Ht.
Qed.

Lemma other_statuses_need_setStatus_witness :
  statusKnown
    (perform (Delivered (onError (Sample.info (Finite 50) (Finite 200))
                           UserCancelledUploadException)) Sample.uploading) ∧
  Task.status 0
    (perform (CallSetStatus 0 "cancelled") Sample.uploading) = Some "cancelled".
Proof.
  assert (statusKnown Sample.uploading) as K.
  { intros [|task] t H; [by injection H as <-|done]. }
  destruct (other_statuses_need_setStatus
              (Delivered (onError (Sample.info (Finite 50) (Finite 200))
                            UserCancelledUploadException))
              Sample.uploading 0%nat
              (pendingTask "s1{1}" (session "s1") Sample.options)
              "cancelled" K eq_refl) as [H1 H2].
  split; [|exact H2]. apply H1. discriminate.
Defined.

(** X16.  In a process that starts fresh no upload ever starts: whatever
    was called or delivered before, [receiver] is unset, the counter is 0,
    no task exists, the cache and the log are empty, and [uploadFile] and
    [multipartUpload] throw a [TypeError], from [new ProgressReceiver()]
    in [ensureReceiver]. *)
Theorem factories_throw_in_a_fresh_process (appPath : string) (s : State)
    (session : Session) (fileUri : string) (params : list Part)
    (options : Request) :
  reachable appPath s →
  dormant s ∧
  (SessionMethods.uploadFile session fileUri options s).1 = Throw TypeError ∧
  (SessionMethods.multipartUpload session params options s).1 = Throw TypeError.
Proof.
  intros R. pose proof (reachable_dormant _ _ R) as D.
  split; [exact D|]. destruct D as (Hr & _).
  unfold SessionMethods.uploadFile, SessionMethods.multipartUpload.
  by rewrite create_run, createMultiPart_run, Hr.
Qed.

Lemma factories_throw_in_a_fresh_process_witness :
  let s :=
    perform (CallMultipartUpload (session "s1") [Sample.field] Sample.options)
      (perform (CallUploadFile (session "s1") "/data/photo.jpg" Sample.options)
         Sample.fresh) in
  dormant s ∧
  (SessionMethods.uploadFile (session "s1") "/data/photo.jpg" Sample.options
     s).1 = Throw TypeError ∧
  (SessionMethods.multipartUpload (session "s1") [Sample.field] Sample.options
     s).1 = Throw TypeError.
Proof.
  intros s.
  apply (factories_throw_in_a_fresh_process "/data/app" s).
  eapply reachable_step; [|by apply step_call].
  eapply reachable_step; [apply reachable_initial|by apply step_call].
Defined.

(** X17.  No call and no callback changes the id or the session of an
    existing task, and none but [setDescription] on that task changes its
    description, which [setDescription] sets to what it is given. *)
Theorem task_identity_is_kept (a : Call) (s : State) (task : loc) (t : Task)
    (v : option string) :
  heap s !! task = Some t →
  (∃ t', heap (perform a s) !! task = Some t' ∧ _id t' = _id t ∧
         _session t' = _session t ∧
         ((∀ v', a ≠ CallSetDescription task v') →
          _description t' = _description t)) ∧
  Task.description task (perform (CallSetDescription task v) s) = v.
Proof.
  intros Ht. split.
  - destruct (perform_cases a s)
      as [(_ & session & options & request & ->)|[(_ & ->)|[(_ & ->)|
          (f & task0 & l & _ & _ & _ & Hh & _ & _ & Hf & Hd & _)]]]; cbn.
    + exists t. split; [by apply lookup_app_l_Some|done].
    + by exists t.
    + by exists t.
    + rewrite Hh. destruct (decide (task0 = task)) as [->|Hne].
      * exists (f t). rewrite list_lookup_alter_eq, Ht.
        split; [done|]. destruct (Hf t) as [-> ->].
        split; [done|]. split; [done|]. intros Ha. by apply Hd.
      * exists t. by rewrite list_lookup_alter_ne.
  - cbn [perform]. rewrite setDescription_run. unfold Task.description. cbn.
    by rewrite list_lookup_alter_eq, Ht.
Qed.

Lemma task_identity_is_kept_witness :
  (∃ t', heap (perform (CallSetStatus 0 "done") Sample.uploading) !! 0%nat
           = Some t' ∧ _id t' = "s1{1}" ∧ _session t' = session "s1" ∧
         _description t' = Some "photo") ∧
  Task.description 0
    (perform (CallSetDescription 0 (Some "portrait")) Sample.uploading)
    = Some "portrait".
Proof.
  destruct (task_identity_is_kept (CallSetStatus 0 "done") Sample.uploading
              0%nat (pendingTask "s1{1}" (session "s1") Sample.options)
              (Some "portrait") eq_refl)
    as [(t' & H1 & H2 & H3 & H4) H5].
  split; [|exact H5].
  exists t'. split; [exact H1|]. split; [exact H2|]. split; [exact H3|].
  apply H4. discriminate.
Defined.

(** X18.  A callback touches nothing but the task its upload id resolves
    to: the cache, the task counter and the number of tasks stay as they
    are, nothing is submitted to the upload service, every effect is a
    notification whose object is that task, and every other task keeps
    all its fields. *)
Theorem callback_touches_only_its_task (c : Callback) (s : State) :
  let s' := (deliver c s).2 in
  cache s' = cache s ∧
  taskCount s' = taskCount s ∧
  length (heap s') = length (heap s) ∧
  requestsStarted (emitted (deliver c) s) = [] ∧
  Forall (λ e, ∃ ev uploadInfo,
            e = Notify ev ∧ uploadInfoOf c = Some uploadInfo ∧
            cache s !! getUploadId uploadInfo = Some (object ev))
    (emitted (deliver c) s) ∧
  ∀ other,
    (∀ uploadInfo, uploadInfoOf c = Some uploadInfo →
       cache s !! getUploadId uploadInfo ≠ Some other) →
    heap s' !! other = heap s !! other.
Proof.
  intros s'. unfold s'.
  destruct (deliver_shape c s)
    as [E|(ui & task & f & evs & Hc & K & E & _ & _ & Hev)].
  - assert (emitted (deliver c) s = []) as ->.
    { apply emitted_app. by rewrite E, app_nil_r. }
    rewrite E. repeat split. constructor.
  - assert (emitted (deliver c) s = evs) as ->.
    { apply emitted_app. by rewrite E. }
    rewrite E. cbn. split; [done|]. split; [done|].
    split; [by rewrite length_alter|].
    split; [by eapply onlyNotifies_requests|]. split.
    + eapply Forall_impl; [exact Hev|].
      intros e (ev & -> & <-). cbn. eauto.
    + intros other Ho. apply list_lookup_alter_ne.
      intros <-. by apply (Ho ui).
Qed.

(** X19.  [uploadFile], [multipartUpload] and [cancel] change no field of
    an existing task, whether they return or throw. *)
Theorem calls_leave_existing_tasks_alone (session : Session)
    (fileUri : string) (params : list Part) (options : Request)
    (this task : loc) (t : Task) (s : State) :
  heap s !! task = Some t →
  heap (SessionMethods.uploadFile session fileUri options s).2 !! task = Some t ∧
  heap (SessionMethods.multipartUpload session params options s).2 !! task
    = Some t ∧
  heap (Task.cancel this s).2 !! task = Some t.
Proof.
  intros H. unfold SessionMethods.uploadFile, SessionMethods.multipartUpload.
  rewrite create_run, createMultiPart_run, cancel_run. repeat split.
  - destruct (receiver s); cbn; [|done]. by apply lookup_app_l_Some.
  - destruct (receiver s); cbn; [|done].
    destruct (getMultipartRequest _ _ _ _); cbn; [|done].
    by apply lookup_app_l_Some.
  - by destruct (heap s !! this).
Qed.

Lemma calls_leave_existing_tasks_alone_witness :
  heap (SessionMethods.multipartUpload (session "s2") [Sample.nameless]
          Sample.options Sample.uploading).2 !! 0%nat =
    Some (pendingTask "s1{1}" (session "s1") Sample.options).
Proof.
  exact (proj1 (proj2 (calls_leave_existing_tasks_alone (session "s2")
                         "/data/b.jpg" [Sample.nameless] Sample.options
                         0%nat 0%nat
                         (pendingTask "s1{1}" (session "s1") Sample.options)
                         Sample.uploading eq_refl))).
Defined.

(** X20.  Once [receiver] is set, a [multipartUpload] that throws in the
    request builder has already incremented the task counter: while the
    counter is below 2^53, the next upload gets the value after the one
    that was used up, so task ids can skip numbers. *)
Theorem rejected_multipart_uses_up_a_counter_value (session next : Session)
    (params : list Part) (options : Request) (fileUri : string) (s : State)
    (p : Part) :
  receiver s = true → (taskCount s + 2 ≤ 2 ^ 53)%N →
  List.find offending params = Some p →
  let s1 := (SessionMethods.multipartUpload session params options s).2 in
  let call := SessionMethods.uploadFile next fileUri options in
  taskCount s1 = (taskCount s + 1)%N ∧
  ∃ task,
    (call s1).1 = Return task ∧
    Task.id task (call s1).2 = Some (Task.makeTaskId next (taskCount s + 2)).
Proof.
  intros Hr Hn Hp s1 call.
  assert (s1 = rejected s) as ->.
  { unfold s1, SessionMethods.multipartUpload.
    by rewrite createMultiPart_run, Hr, getMultipartRequest_spec, Hp. }
  assert (taskCount (rejected s) = (taskCount s + 1)%N) as E1.
  { cbn. apply increment_below. lia. }
  split; [exact E1|].
  unfold call, SessionMethods.uploadFile.
  rewrite create_run. cbn [receiver rejected]. rewrite Hr.
  exists (length (heap s)). split; [reflexivity|].
  unfold Task.id, Task.field. cbn [snd heap created rejected].
  rewrite lookup_snoc.
  replace (Task.increment (taskCount (rejected s))) with (taskCount s + 2)%N;
    [reflexivity|].
  rewrite E1, increment_below by lia. lia.
Qed.

Lemma rejected_multipart_uses_up_a_counter_value_witness :
  let s1 :=
    (SessionMethods.multipartUpload (session "s1") [Sample.nameless]
       Sample.options Sample.ready).2 in
  let call := SessionMethods.uploadFile (session "s1") "/data/photo.jpg"
                Sample.options in
  taskCount s1 = 1%N ∧
  ∃ task,
    (call s1).1 = Return task ∧
    Task.id task (call s1).2 = Some (Task.makeTaskId (session "s1") 2).
Proof.
  exact (rejected_multipart_uses_up_a_counter_value (session "s1")
           (session "s1") [Sample.nameless] Sample.options "/data/photo.jpg"
           Sample.ready Sample.nameless eq_refl
           ltac:(vm_compute; discriminate) eq_refl).
Defined.
